(** * kea-conf-generate: the configuration builder and its JSON serializer

  A shallow embedding of [KeaGenerator.h], [KeaGenerator.cc] and of the
  standalone program that carries its own copy of the data model.

  - [uint64_t] is [Z] reduced modulo [2^64] where the code increments.
  - [std::string] is [string]; [operator<] on strings is the byte-wise
    lexicographic order, [String.ltb].
  - [std::set<T>] is the list of its elements in iteration order, with
    the insertion of an ordered unique container.
  - [std::unordered_map<uint64_t, Cfg>] is a [gmap Z Cfg]; the order in
    which it is iterated is a parameter.
  - [nlohmann::json] is a tree whose objects are key-ordered association
    lists (the library stores them in a [std::map]).
  - what is written to [std::cerr] is returned as a list of lines. *)

From Stdlib Require Import ZArith String Ascii List Lia.
From Stdlib Require Import Sorting.Sorted Permutation.
From Stdlib Require Import Structures.OrderedTypeEx.
From stdpp Require Import base gmap list sorting strings.

Set Warnings "-register-all".

Local Open Scope Z_scope.
Local Open Scope string_scope.

(** ** Machine integers *)

(** The value a [uint64_t] holds after it was assigned [z]. *)
Definition wrap64 (z : Z) : Z := z mod 2 ^ 64.

(** ** Ordered unique containers *)

Section StdSet.
Context {A : Type} (less : A -> A -> bool).

(** [std::set<A>::insert] on the set seen in iteration order: the
    element goes in front of the first larger one, and nothing happens
    when an equivalent element (neither smaller nor larger) is there. *)
Fixpoint set_insert (x : A) (s : list A) : list A :=
  match s with
  | [] => [x]
  | y :: s' =>
      if less x y then x :: y :: s'
      else if less y x then y :: set_insert x s'
      else y :: s'
  end.

(** The invariant of the container: strictly ascending. *)
Definition set_ok (s : list A) : Prop :=
  StronglySorted (fun a b => less a b = true) s.
End StdSet.

(** ** JSON values *)

Module Json.

Inductive json : Type :=
| JNull
| JBool (b : bool)
| JUnsigned (n : Z)
| JString (s : string)
| JArray (items : list json)
| JObject (fields : list (string * json)).

Definition key_less (a b : string * json) : bool := String.ltb (fst a) (fst b).

(** Insert-or-assign in the key-ordered field list of an object. *)
Fixpoint obj_set (k : string) (v : json) (o : list (string * json))
  : list (string * json) :=
  match o with
  | [] => [(k, v)]
  | (k', v') :: o' =>
      if String.ltb k k' then (k, v) :: (k', v') :: o'
      else if String.ltb k' k then (k', v') :: obj_set k v o'
      else (k', v) :: o'
  end.

(** [json{ {k1, v1}, {k2, v2}, ... }]: an object built from a list of
    key/value pairs, each pair emplaced in turn. *)
Definition object_of (kvs : list (string * json)) : json :=
  JObject (fold_left (fun o kv => set_insert key_less kv o) kvs []).

(** [j[k] = v]. A null value becomes an object first. On the other
    kinds the library raises a type error; no serializer of this
    program reaches that case and the value is returned as it is. *)
Definition set (k : string) (v : json) (j : json) : json :=
  match j with
  | JNull => JObject [(k, v)]
  | JObject o => JObject (obj_set k v o)
  | _ => j
  end.

(** The keys of an object, in the order the object stores them. *)
Definition keys (j : json) : list string :=
  match j with
  | JObject o => map fst o
  | _ => []
  end.

(** [j.contains(k)] / [j.at(k)]. *)
Definition get (k : string) (j : json) : option json :=
  match j with
  | JObject o => snd <$> find (fun kv => String.eqb (fst kv) k) o
  | _ => None
  end.

Definition of_strings (l : list string) : json := JArray (map JString l).

End Json.
Import Json.

(** ** The data model *)

Module InterfacesConfig.
Record t := mk { interfaces : list string }.

Definition empty (i : t) : bool :=
  match interfaces i with [] => true | _ => false end.

Definition to_json (i : t) : json :=
  object_of [("interfaces", of_strings (interfaces i))].
End InterfacesConfig.

Module LeaseDatabase.
Record t := mk { type : string; persist : bool; name : string }.

(** [LeaseDatabase ()] *)
Definition default : t := mk "" false "".

(** [std::string::empty] *)
Definition string_empty (s : string) : bool :=
  match s with EmptyString => true | String _ _ => false end.

(** The header: [type.empty () || name.empty ()]. *)
Definition empty (l : t) : bool :=
  string_empty (type l) || string_empty (name l).

Definition to_json (l : t) : json :=
  let j := JNull in
  let j := Json.set "type" (JString (type l)) j in
  let j := Json.set "persist" (JBool (persist l)) j in
  let j := Json.set "name" (JString (name l)) j in
  j.
End LeaseDatabase.

Module Subnet4.
Record Pool := mkPool { range : string }.

(** [Pool::operator<] *)
Definition pool_less (a b : Pool) : bool := String.ltb (range a) (range b).

Record Cfg := mkCfg { id : Z; subnet : string; pools : list Pool }.

Record t := mk { max_id : Z; cfgs : gmap Z Cfg }.

(** [Subnet4 () : max_id (1)] *)
Definition new : t := mk 1 ∅.

(** The header: [current_id = max_id++; cfgs[current_id] = Cfg{...};
    return current_id]. The result is the returned identifier and the
    state after the call. *)
Definition add_config (sn : string) (s : t) : Z * t :=
  let current_id := max_id s in
  let s := mk (wrap64 (max_id s + 1)) (cfgs s) in
  let s := mk (max_id s) (<[current_id := mkCfg current_id sn []]> (cfgs s)) in
  (current_id, s).

(** [find] the entry; without one, [return false]. Otherwise insert the
    pool [low + " - " + high] in the entry's pool set (through the
    iterator in the header, through [cfgs[cfg_id]] in the standalone
    program) and [return true]. *)
Definition add_pool_for_cfg (cfg_id : Z) (low high : string) (s : t)
  : bool * t :=
  match cfgs s !! cfg_id with
  | None => (false, s)
  | Some c =>
      let pool_range := (low ++ " - ") ++ high in
      let c := mkCfg (id c) (subnet c)
                     (set_insert pool_less (mkPool pool_range) (pools c)) in
      (true, mk (max_id s) (<[cfg_id := c]> (cfgs s)))
  end.

#[export] Instance Pool_eq_dec : EqDecision Pool.
Proof. solve_decision. Defined.

Definition empty (s : t) : bool := bool_decide (cfgs s = ∅).

(** The order in which a [std::unordered_map] is iterated is left to
    the implementation: every entry is visited once. *)
Class Iteration := {
  iterate : gmap Z Cfg -> list (Z * Cfg);
  iterate_perm : forall m, iterate m ≡ₚ map_to_list m
}.

Definition Pool_to_json (p : Pool) : json :=
  object_of [("pool", JString (range p))].

Definition Cfg_to_json (c : Cfg) : json :=
  object_of [("id", JUnsigned (id c));
             ("subnet", JString (subnet c));
             ("pools", JArray (map Pool_to_json (pools c)))].

Definition to_json `{Iteration} (s : t) : json :=
  let cfg_vector := map snd (iterate (cfgs s)) in
  JArray (map Cfg_to_json cfg_vector).
End Subnet4.

Module OptionData.
Record Option := mkOption { name : string; data : string; always_send : bool }.

(** [Option::operator<] *)
Definition option_less (a b : Option) : bool := String.ltb (name a) (name b).

Record t := mk { options : list Option }.

(** [OptionData ()] *)
Definition new : t := mk [].

Definition add_option (n d : string) (a : bool) (o : t) : t :=
  mk (set_insert option_less (mkOption n d a) (options o)).

Definition add_option_always (n d : string) (o : t) : t :=
  add_option n d true o.

Definition empty (o : t) : bool :=
  match options o with [] => true | _ => false end.

Definition Option_to_json (o : Option) : json :=
  object_of [("name", JString (name o));
             ("data", JString (data o));
             ("always-send", JBool (always_send o))].

Definition to_json (o : t) : json := JArray (map Option_to_json (options o)).
End OptionData.

Module Dhcp4.
Record t := mk {
  valid_lifetime : Z;
  interface_config : InterfacesConfig.t;
  lease_database : LeaseDatabase.t;
  subnet4 : Subnet4.t;
  option_data : OptionData.t
}.

(** [Dhcp4 (lifetime, interfaces, lease_type, lease_persist, lease_name)].
    The header's constructor warns on [std::cerr] when it is given no
    interface; the object it builds is the same. *)
Definition make (lifetime : Z) (interfaces_init_list : list string)
    (lease_type : string) (lease_persist : bool) (lease_name : string) : t :=
  mk lifetime
     (InterfacesConfig.mk interfaces_init_list)
     (LeaseDatabase.mk lease_type lease_persist lease_name)
     Subnet4.new
     OptionData.new.

(** The constructor with its three default arguments. *)
Definition make_default (lifetime : Z) (interfaces_init_list : list string) : t :=
  make lifetime interfaces_init_list "memfile" true "/var/lib/kea/dhcp4.leases".

(** [Dhcp4 ()] *)
Definition default : t :=
  mk 0 (InterfacesConfig.mk []) LeaseDatabase.default Subnet4.new OptionData.new.

(** Assignment to the members [subnet4] and [option_data]. *)
Definition with_subnet4 (s : Subnet4.t) (d : t) : t :=
  mk (valid_lifetime d) (interface_config d) (lease_database d) s (option_data d).

Definition with_option_data (o : OptionData.t) (d : t) : t :=
  mk (valid_lifetime d) (interface_config d) (lease_database d) (subnet4 d) o.

(** [to_json (json &, const Dhcp4 &)] of [KeaGenerator.cc]: the document
    and the lines written to [std::cerr]. *)
Definition to_json `{Subnet4.Iteration} (d : t) : json * list string :=
  let j := object_of [("valid-lifetime", JUnsigned (valid_lifetime d))] in
  if InterfacesConfig.empty (interface_config d) then
    (j, ["interfaces-config is empty during JSON serialization"])
  else
    let j := Json.set "interfaces-config"
               (InterfacesConfig.to_json (interface_config d)) j in
    if LeaseDatabase.empty (lease_database d) then
      (j, ["lease database is empty during JSON serialization"])
    else
      let j := Json.set "lease-database"
                 (LeaseDatabase.to_json (lease_database d)) j in
      if Subnet4.empty (subnet4 d) then
        (j, ["subnet4 is empty during JSON serialization"])
      else
        let j := Json.set "subnet4" (Subnet4.to_json (subnet4 d)) j in
        if negb (OptionData.empty (option_data d)) then
          (Json.set "option-data" (OptionData.to_json (option_data d)) j, [])
        else (j, []).
End Dhcp4.

Module KeaConfig.
Record t := mk { dhcp4 : Dhcp4.t }.

(** [KeaConfig () : dhcp4 (4000, { "aaa", "bbb" })] *)
Definition default : t := mk (Dhcp4.make_default 4000 ["aaa"; "bbb"]).

(** [explicit KeaConfig (Dhcp4 dhcp4_config)] *)
Definition of_dhcp4 (dhcp4_config : Dhcp4.t) : t := mk dhcp4_config.

Definition to_json `{Subnet4.Iteration} (k : t) : json * list string :=
  let (jd, diag) := Dhcp4.to_json (dhcp4 k) in
  (object_of [("Dhcp4", jd)], diag).
End KeaConfig.

(** ** The standalone program

    It declares the same structures in one file. What it writes
    differently from the header is embedded again here. *)

Module Standalone.

(** [type == "" || name == ""] *)
Definition LeaseDatabase_empty (l : LeaseDatabase.t) : bool :=
  if String.eqb (LeaseDatabase.type l) "" || String.eqb (LeaseDatabase.name l) ""
  then true else false.

(** [cfgs[max_id] = Cfg{ max_id, subnet, {} }; return max_id++;] *)
Definition add_config (sn : string) (s : Subnet4.t) : Z * Subnet4.t :=
  let s := Subnet4.mk (Subnet4.max_id s)
             (<[Subnet4.max_id s := Subnet4.mkCfg (Subnet4.max_id s) sn []]>
                (Subnet4.cfgs s)) in
  (Subnet4.max_id s, Subnet4.mk (wrap64 (Subnet4.max_id s + 1)) (Subnet4.cfgs s)).

Definition Dhcp4_to_json `{Subnet4.Iteration} (d : Dhcp4.t) : json * list string :=
  let j := object_of [("valid-lifetime", JUnsigned (Dhcp4.valid_lifetime d))] in
  if InterfacesConfig.empty (Dhcp4.interface_config d) then
    (j, ["interfaces-config is empty"])
  else
    let j := Json.set "interfaces-config"
               (InterfacesConfig.to_json (Dhcp4.interface_config d)) j in
    if LeaseDatabase_empty (Dhcp4.lease_database d) then
      (j, ["lease database is empty"])
    else
      let j := Json.set "lease-database"
                 (LeaseDatabase.to_json (Dhcp4.lease_database d)) j in
      if Subnet4.empty (Dhcp4.subnet4 d) then
        (j, ["subnet4 is empty"])
      else
        let j := Json.set "subnet4" (Subnet4.to_json (Dhcp4.subnet4 d)) j in
        if OptionData.empty (Dhcp4.option_data d) then
          (j, ["option data is empty"])
        else
          (Json.set "option-data" (OptionData.to_json (Dhcp4.option_data d)) j, []).

Definition KeaConfig_to_json `{Subnet4.Iteration} (k : KeaConfig.t)
  : json * list string :=
  let (jd, diag) := Dhcp4_to_json (KeaConfig.dhcp4 k) in
  (object_of [("Dhcp4", jd)], diag).

(** The configuration [main] builds before it prints it. *)
Definition main_config : KeaConfig.t :=
  let config := KeaConfig.default in
  let d := KeaConfig.dhcp4 config in
  let (_, s) := add_config "192.168.10.0/24" (Dhcp4.subnet4 d) in
  let (_, s) := Subnet4.add_pool_for_cfg (wrap64 (Subnet4.max_id s - 1))
                  "192.168.10.10" "192.168.10.20" s in
  let o := OptionData.add_option_always "domain-name-servers"
             "192.0.2.1, 192.0.2.2" (Dhcp4.option_data d) in
  KeaConfig.mk (Dhcp4.with_option_data o (Dhcp4.with_subnet4 s d)).

End Standalone.

(** ** Sequences of calls *)

Module Calls.

(** A call on a [Subnet4] and what it returned. *)
Inductive call :=
| AddConfig (sn : string)
| AddPoolForCfg (cfg_id : Z) (low high : string).

Inductive result :=
| Id (i : Z)
| Status (ok : bool).

Definition do_call (c : call) (s : Subnet4.t) : result * Subnet4.t :=
  match c with
  | AddConfig sn =>
      let (i, s') := Subnet4.add_config sn s in (Id i, s')
  | AddPoolForCfg i low high =>
      let (b, s') := Subnet4.add_pool_for_cfg i low high s in (Status b, s')
  end.

Fixpoint run (cs : list call) (s : Subnet4.t) : list result * Subnet4.t :=
  match cs with
  | [] => ([], s)
  | c :: cs' =>
      let (r, s1) := do_call c s in
      let (rs, s2) := run cs' s1 in
      (r :: rs, s2)
  end.

#[export] Instance result_eq_dec : EqDecision result.
Proof. solve_decision. Defined.

(** The pool sets of a state keep the container's invariant. *)
Definition pools_ok (s : Subnet4.t) : Prop :=
  forall j c, Subnet4.cfgs s !! j = Some c ->
    set_ok Subnet4.pool_less (Subnet4.pools c).

(** The options of a list added in list order, one [add_option] each. *)
Definition add_options (l : list OptionData.Option) (o : OptionData.t)
  : OptionData.t :=
  fold_left (fun o x => OptionData.add_option (OptionData.name x)
                          (OptionData.data x) (OptionData.always_send x) o) l o.

(** The strings under ["name"] in the elements of a JSON array, in array
    order. *)
Definition array_names (j : json) : list string :=
  match j with
  | JArray items =>
      flat_map (fun item => match Json.get "name" item with
                            | Some (JString n) => [n]
                            | _ => []
                            end) items
  | _ => []
  end.

End Calls.

(** One iteration order to compute with: the order in which the [gmap]
    lists its entries. *)
#[export] Instance gmap_iteration : Subnet4.Iteration :=
  {| Subnet4.iterate := map_to_list;
     Subnet4.iterate_perm := fun m => reflexivity (map_to_list m) |}.

(** The four emptiness tests of a [Dhcp4], each either way. *)
Ltac case_gates d :=
  destruct (InterfacesConfig.empty (Dhcp4.interface_config d));
  destruct (LeaseDatabase.empty (Dhcp4.lease_database d));
  destruct (Subnet4.empty (Dhcp4.subnet4 d));
  destruct (OptionData.empty (Dhcp4.option_data d)).

(** ** The configurations of the test suite *)

Module Scenarios.

(** Lifetime 7200, one interface, one subnet with one pool, and the two
    options added in the order [domain-name-servers], [routers]. *)
Definition happy_path : Dhcp4.t :=
  let d := Dhcp4.make 7200 ["enp0s1"] "memfile" true "kea-leases4.csv" in
  let (subnet_id, s) := Subnet4.add_config "192.168.50.0/24" (Dhcp4.subnet4 d) in
  let (_, s) := Subnet4.add_pool_for_cfg subnet_id "192.168.50.10"
                  "192.168.50.20" s in
  let o := OptionData.add_option_always "domain-name-servers"
             "192.168.50.1, 8.8.8.8" (Dhcp4.option_data d) in
  let o := OptionData.add_option "routers" "192.168.50.1" false o in
  Dhcp4.with_option_data o (Dhcp4.with_subnet4 s d).

(** The same without options. *)
Definition no_options : Dhcp4.t :=
  Dhcp4.with_option_data OptionData.new happy_path.

(** Interfaces, and a lease database whose name is the empty string. *)
Definition no_lease_name : Dhcp4.t :=
  Dhcp4.make 7200 ["enp0s1"] "memfile" true "".

(** The calls of the [Subnet4] test. *)
Definition subnet4_calls : list Calls.call :=
  [Calls.AddConfig "192.168.1.0/24";
   Calls.AddConfig "10.0.0.0/8";
   Calls.AddPoolForCfg 1 "192.168.1.100" "192.168.1.200";
   Calls.AddPoolForCfg 1 "192.168.1.50" "192.168.1.60";
   Calls.AddPoolForCfg 999 "1.1.1.1" "1.1.1.1"].

End Scenarios.

(** ** Runs of calls: what the further properties speak of *)

Module Runs.

Definition is_add_config (c : Calls.call) : bool :=
  match c with
  | Calls.AddConfig _ => true
  | Calls.AddPoolForCfg _ _ _ => false
  end.

(** How many calls of a run are [add_config]. *)
Definition add_config_count (cs : list Calls.call) : nat :=
  length (List.filter is_add_config cs).

(** Every entry is stored under its own identifier. *)
Definition ids_ok (s : Subnet4.t) : Prop :=
  forall j c, Subnet4.cfgs s !! j = Some c -> Subnet4.id c = j.

(** The state of a [Subnet4] on which [add_config] ran [n] times without
    the counter passing [2^64]: the counter is [n + 1] as a [uint64_t] and
    the keys are 1 to [n]. *)
Definition counted (s : Subnet4.t) (n : nat) : Prop :=
  Subnet4.max_id s = wrap64 (1 + Z.of_nat n) /\
  forall j, is_Some (Subnet4.cfgs s !! j) <-> 1 <= j <= Z.of_nat n.

(** The entry [e'] is the entry [e] with, maybe, more pools. *)
Definition extends (e e' : Subnet4.Cfg) : Prop :=
  Subnet4.id e' = Subnet4.id e /\
  Subnet4.subnet e' = Subnet4.subnet e /\
  forall p, p ∈ Subnet4.pools e -> p ∈ Subnet4.pools e'.

(** The options of a list whose name did not occur earlier in the list
    nor in [seen]. *)
Fixpoint first_occurrences (seen : list string) (l : list OptionData.Option)
  : list OptionData.Option :=
  match l with
  | [] => []
  | o :: l' =>
      if bool_decide (OptionData.name o ∈ seen) then first_occurrences seen l'
      else o :: first_occurrences (OptionData.name o :: seen) l'
  end.

(** The header's constructor [Dhcp4 (lifetime, interfaces, lease_type,
    lease_persist, lease_name)] with what it writes to [std::cerr]: the
    members are initialized, then a warning is written when the
    interfaces are empty. *)
Definition construct_Dhcp4 (lifetime : Z) (interfaces_init_list : list string)
    (lease_type : string) (lease_persist : bool) (lease_name : string)
  : Dhcp4.t * list string :=
  let d := Dhcp4.mk lifetime
             (InterfacesConfig.mk interfaces_init_list)
             (LeaseDatabase.mk lease_type lease_persist lease_name)
             Subnet4.new
             OptionData.new in
  if InterfacesConfig.empty (Dhcp4.interface_config d) then
    (d, ["[Warning] Dhcp4 created with empty interfaces-config."])
  else (d, []).

(** The numbers under ["id"] in the elements of a JSON array, in array
    order. *)
Definition array_ids (j : json) : list Z :=
  match j with
  | JArray items =>
      flat_map (fun item => match Json.get "id" item with
                            | Some (JUnsigned i) => [i]
                            | _ => []
                            end) items
  | _ => []
  end.

End Runs.

(** * Properties *)

(** ** Strings and their order *)

Lemma append_assoc (a b c : string) : (a ++ b) ++ c = a ++ (b ++ c).
Proof.
  induction a as [|x a IH]; [done|].
  change (String x ((a ++ b) ++ c) = String x (a ++ (b ++ c))).
  by rewrite IH.
Qed.

Lemma ltb_lt (a b : string) : String.ltb a b = true <-> String_as_OT.lt a b.
Proof.
  rewrite <- String_as_OT.cmp_lt. unfold String.ltb, String_as_OT.cmp.
  destruct (String.compare a b); split; congruence.
Qed.

Lemma ltb_irrefl (a : string) : String.ltb a a = false.
Proof.
  destruct (String.ltb a a) eqn:E; [|done].
  apply ltb_lt in E. by apply String_as_OT.lt_not_eq in E.
Qed.

Lemma ltb_trans (a b c : string) :
  String.ltb a b = true -> String.ltb b c = true -> String.ltb a c = true.
Proof.
  rewrite !ltb_lt. apply String_as_OT.lt_trans.
Qed.

Lemma ltb_total (a b : string) :
  String.ltb a b = false -> String.ltb b a = false -> a = b.
Proof.
  unfold String.ltb. rewrite (String.compare_antisym b a).
  destruct (String.compare a b) eqn:E; simpl; try discriminate.
  intros _ _. by apply String.compare_eq_iff.
Qed.

(** ** Insertion in an ordered unique container *)

Section StdSetFacts.
Context {A : Type} (less : A -> A -> bool).
Hypothesis less_irrefl : forall x, less x x = false.
Hypothesis less_trans :
  forall x y z, less x y = true -> less y z = true -> less x z = true.

Lemma set_insert_idem (x : A) (s : list A) :
  set_insert less x (set_insert less x s) = set_insert less x s.
Proof.
  induction s as [|y s IH]; simpl.
  - by rewrite less_irrefl.
  - destruct (less x y) eqn:Hxy; simpl.
    + by rewrite less_irrefl.
    + destruct (less y x) eqn:Hyx; simpl; rewrite Hxy, Hyx; [by rewrite IH|done].
Qed.

Lemma set_insert_subset (x z : A) (s : list A) :
  z ∈ set_insert less x s -> z = x \/ z ∈ s.
Proof.
  induction s as [|y s IH]; simpl.
  - intros ->%list_elem_of_singleton. by left.
  - destruct (less x y); [|destruct (less y x)].
    + intros [->|H]%elem_of_cons; [by left|by right].
    + intros [->|H]%elem_of_cons; [right; left|].
      destruct (IH H) as [->|?]; [by left|right; by right].
    + by right.
Qed.

(** After the insertion the container holds an element equivalent to the
    inserted one. *)
Lemma set_insert_equiv (x : A) (s : list A) :
  exists y, y ∈ set_insert less x s /\ less x y = false /\ less y x = false.
Proof.
  induction s as [|y s IH]; simpl.
  - exists x. split; [left|auto].
  - destruct (less x y) eqn:Hxy; [|destruct (less y x) eqn:Hyx].
    + exists x. split; [left|auto].
    + destruct IH as (z & Hz & ?). exists z. split; [by right|done].
    + exists y. split; [left|auto].
Qed.

Lemma set_insert_ok (x : A) (s : list A) :
  set_ok less s -> set_ok less (set_insert less x s).
Proof.
  unfold set_ok. induction 1 as [|y s Hs IH Hy]; simpl.
  - repeat constructor.
  - destruct (less x y) eqn:Hxy; [|destruct (less y x) eqn:Hyx].
    + constructor; [by constructor|].
      constructor; [done|].
      eapply Forall_impl; [exact Hy|]. intros z Hz. by eapply less_trans.
    + constructor; [done|].
      apply Forall_forall. intros z Hz%set_insert_subset.
      destruct Hz as [->|Hz]; [done|].
      by eapply Forall_forall in Hy.
    + by constructor.
Qed.

(** Inserting an element that has an equivalent in the container changes
    nothing. *)
Lemma set_insert_present (x o : A) (s : list A) :
  set_ok less s -> o ∈ s -> less x o = false -> less o x = false ->
  set_insert less x s = s.
Proof.
  unfold set_ok. induction 1 as [|y s Hs IH Hy]; simpl.
  - by intros ?%elem_of_nil.
  - intros [->|Ho]%elem_of_cons Hxo Hox.
    + by rewrite Hxo, Hox.
    + destruct (less x y) eqn:Hxy.
      * eapply Forall_forall in Hy; [|exact Ho].
        rewrite (less_trans _ _ _ Hxy Hy) in Hxo. discriminate.
      * destruct (less y x); [|done]. by rewrite IH.
Qed.

Lemma set_ok_NoDup (s : list A) : set_ok less s -> NoDup s.
Proof.
  unfold set_ok. induction 1 as [|y s Hs IH Hy]; constructor; [|done].
  intros Hin. eapply Forall_forall in Hy; [|exact Hin].
  by rewrite less_irrefl in Hy.
Qed.

(** Two elements of a container that are equivalent are one element. *)
Lemma set_ok_equiv_eq (x y : A) (s : list A) :
  set_ok less s -> x ∈ s -> y ∈ s ->
  less x y = false -> less y x = false -> x = y.
Proof.
  unfold set_ok. induction 1 as [|z s Hs IH Hz]; [by intros ?%elem_of_nil|].
  intros [->|Hx]%elem_of_cons [->|Hy]%elem_of_cons Hxy Hyx; [done| | |by apply IH].
  - eapply Forall_forall in Hz; [|exact Hy]. congruence.
  - eapply Forall_forall in Hz; [|exact Hx]. congruence.
Qed.

(** An element with no equivalent in the container is added to it. *)
Lemma set_insert_perm (x : A) (s : list A) :
  (forall y, y ∈ s -> less x y = true \/ less y x = true) ->
  set_insert less x s ≡ₚ x :: s.
Proof.
  induction s as [|y s IH]; intros Hs; simpl; [done|].
  destruct (less x y) eqn:Hxy; [done|].
  destruct (less y x) eqn:Hyx.
  - rewrite IH; [apply perm_swap|]. intros z Hz. apply Hs. by right.
  - destruct (Hs y) as [?|?]; [left|congruence|congruence].
Qed.

Lemma set_ok_unique (s1 s2 : list A) :
  set_ok less s1 -> set_ok less s2 -> s1 ≡ₚ s2 -> s1 = s2.
Proof.
  unfold set_ok. apply StronglySorted_unique.
  intros x y Hxy Hyx. pose proof (less_trans _ _ _ Hxy Hyx) as Hxx.
  by rewrite less_irrefl in Hxx.
Qed.

End StdSetFacts.

(** ** Subnet4: identifiers *)

Import Calls.
Import Runs.

Lemma run_cons (c : call) (cs : list call) (s : Subnet4.t) :
  run (c :: cs) s =
  (fst (do_call c s) :: fst (run cs (snd (do_call c s))),
   snd (run cs (snd (do_call c s)))).
Proof.
  cbn [run]. destruct (do_call c s) as [r s1]. cbn [fst snd].
  by destruct (run cs s1).
Qed.

Lemma wrap64_add_l (a b : Z) : wrap64 (wrap64 a + b) = wrap64 (a + b).
Proof. unfold wrap64. by rewrite Zplus_mod_idemp_l. Qed.

Lemma wrap64_succ (m : Z) : wrap64 (wrap64 m + 1) = wrap64 (m + 1).
Proof. apply wrap64_add_l. Qed.

Lemma wrap64_small (m : Z) : 0 <= m < 2 ^ 64 -> wrap64 m = m.
Proof. intros. unfold wrap64. by apply Z.mod_small. Qed.

(** The two [add_config] bodies, the header's and the standalone
    program's, are the same function. *)
Lemma standalone_add_config (sn : string) (s : Subnet4.t) :
  Standalone.add_config sn s = Subnet4.add_config sn s.
Proof. reflexivity. Qed.

(** The identifiers a run of [add_config] calls returns, whatever its
    length: the counter is read modulo [2^64]. *)
Lemma add_config_run_ids (sns : list string) : forall (m : Z) (s : Subnet4.t),
  Subnet4.max_id s = wrap64 m ->
  fst (run (map AddConfig sns) s) =
    map (fun k => Id (wrap64 (m + Z.of_nat k))) (seq 0 (length sns)).
Proof.
  induction sns as [|sn sns IH]; intros m s Hm; [done|].
  rewrite map_cons, run_cons. cbn [fst snd do_call Subnet4.add_config length seq map].
  f_equal.
  - by rewrite Z.add_0_r, Hm.
  - rewrite (IH (m + 1)).
    + rewrite <- seq_shift, map_map. apply map_ext. intros k.
      do 2 f_equal. lia.
    + cbn [Subnet4.max_id]. rewrite Hm. apply wrap64_succ.
Qed.


Lemma lookup_map_seq {B : Type} (f : nat -> B) (n i : nat) : forall j : nat,
  (i < n)%nat -> map f (seq j n) !! i = Some (f (j + i)%nat).
Proof.
  revert i. induction n as [|n IH]; intros i j Hi; [lia|].
  destruct i as [|i]; cbn [seq map].
  - by rewrite Nat.add_0_r.
  - change ((f j :: map f (seq (S j) n)) !! S i) with (map f (seq (S j) n) !! i).
    rewrite IH by lia. f_equal. f_equal. lia.
Qed.

Lemma new_counter : Subnet4.max_id Subnet4.new = wrap64 1.
Proof. reflexivity. Qed.

(** The arithmetic of the counter past the end of its range: in a run of
    [2^64 + 1] calls of [add_config] the results would be [1] first, [0]
    at call number [2^64] and [1] again after it. Every call adds an entry
    to the map and none is ever erased, so such a run needs [2^64 - 1]
    live entries: no execution gets there. *)
Lemma add_config_identifier_reused :
  let rs := fst (run (map AddConfig (repeat "" (Z.to_nat (2 ^ 64 + 1))))
                     Subnet4.new) in
  rs !! 0%nat = Some (Id 1) /\
  rs !! Z.to_nat (2 ^ 64 - 1) = Some (Id 0) /\
  rs !! Z.to_nat (2 ^ 64) = Some (Id 1).
Proof.
  cbv zeta.
  rewrite (add_config_run_ids (repeat "" (Z.to_nat (2 ^ 64 + 1))) 1
             Subnet4.new new_counter).
  rewrite repeat_length.
  assert (H0 : (0 < Z.to_nat (2 ^ 64 + 1))%nat).
  { change 0%nat with (Z.to_nat 0). apply Z2Nat.inj_lt; lia. }
  assert (H1 : (Z.to_nat (2 ^ 64 - 1) < Z.to_nat (2 ^ 64 + 1))%nat).
  { apply Z2Nat.inj_lt; lia. }
  assert (H2 : (Z.to_nat (2 ^ 64) < Z.to_nat (2 ^ 64 + 1))%nat).
  { apply Z2Nat.inj_lt; lia. }
  rewrite !lookup_map_seq by assumption.
  rewrite !Nat.add_0_l, !Z2Nat.id by lia.
  repeat split.
Qed.



(** ** Subnet4: pools *)

(** Every key of the map was returned by an [add_config] of the run, or
    was there before it. *)
Lemma run_keys (cs : list call) : forall (s : Subnet4.t) (j : Z),
  is_Some (Subnet4.cfgs (snd (run cs s)) !! j) ->
  is_Some (Subnet4.cfgs s !! j) \/ Id j ∈ fst (run cs s).
Proof.
  induction cs as [|c cs IH]; intros s j; [by left|].
  rewrite run_cons. cbn [fst snd]. intros Hj.
  destruct (IH _ _ Hj) as [Hs1|Hin]; [|right; by right].
  destruct c as [sn|i low high]; cbn [do_call] in *.
  - cbn [Subnet4.add_config fst snd Subnet4.cfgs] in *.
    destruct (decide (Subnet4.max_id s = j)) as [->|Hne].
    + right. left.
    + left. by rewrite lookup_insert_ne in Hs1.
  - unfold Subnet4.add_pool_for_cfg in *.
    destruct (Subnet4.cfgs s !! i) as [c|] eqn:Hi; cbn [fst snd] in *.
    + cbn [Subnet4.cfgs] in Hs1. left.
      destruct (decide (i = j)) as [->|Hne]; [by rewrite Hi|].
      by rewrite lookup_insert_ne in Hs1.
    + by left.
Qed.

Lemma pool_less_irrefl (p : Subnet4.Pool) : Subnet4.pool_less p p = false.
Proof. apply ltb_irrefl. Qed.

Lemma pool_less_trans (p q r : Subnet4.Pool) :
  Subnet4.pool_less p q = true -> Subnet4.pool_less q r = true ->
  Subnet4.pool_less p r = true.
Proof. apply ltb_trans. Qed.

Lemma pool_equiv_eq (p q : Subnet4.Pool) :
  Subnet4.pool_less p q = false -> Subnet4.pool_less q p = false -> p = q.
Proof.
  destruct p as [a], q as [b]. unfold Subnet4.pool_less. cbn.
  intros H1 H2. f_equal. by apply ltb_total.
Qed.

Lemma run_pools_ok (cs : list call) : forall s : Subnet4.t,
  pools_ok s -> pools_ok (snd (run cs s)).
Proof.
  induction cs as [|c cs IH]; intros s Hs; [done|].
  rewrite run_cons. cbn [snd]. apply IH. clear IH.
  destruct c as [sn|i low high]; cbn [do_call].
  - cbn [Subnet4.add_config snd]. intros j c.
    cbn [Subnet4.cfgs]. rewrite lookup_insert.
    case_decide; [|by apply Hs].
    intros [= <-]. constructor.
  - unfold Subnet4.add_pool_for_cfg.
    destruct (Subnet4.cfgs s !! i) as [c|] eqn:Hi; cbn [snd]; [|done].
    intros j c'. cbn [Subnet4.cfgs]. rewrite lookup_insert.
    case_decide; [|by apply Hs].
    intros [= <-]. cbn [Subnet4.pools].
    apply set_insert_ok; [apply pool_less_trans|by eapply Hs].
Qed.

Lemma add_pool_for_cfg_present
    (s : Subnet4.t) (i : Z) (c : Subnet4.Cfg) (low high : string) :
  Subnet4.cfgs s !! i = Some c ->
  Subnet4.add_pool_for_cfg i low high s =
    (true,
     Subnet4.mk (Subnet4.max_id s)
       (<[i := Subnet4.mkCfg (Subnet4.id c) (Subnet4.subnet c)
                 (set_insert Subnet4.pool_less
                    (Subnet4.mkPool (low ++ " - " ++ high)) (Subnet4.pools c))]>
          (Subnet4.cfgs s))).
Proof.
  intros Hi. unfold Subnet4.add_pool_for_cfg. by rewrite Hi, append_assoc.
Qed.

(** C3: after any run of calls on a fresh [Subnet4], [add_pool_for_cfg]
    with an identifier that no [add_config] of the run returned gives
    [false] and the state it was called on. Of the operations embedded
    here it is the one whose result is a status. *)
Theorem add_pool_for_cfg_unknown (cs : list call) (i : Z) (low high : string) :
  (Id i ∉ fst (run cs Subnet4.new)) ->
  Subnet4.add_pool_for_cfg i low high (snd (run cs Subnet4.new)) =
    (false, snd (run cs Subnet4.new)).
Proof.
  intros Hi. unfold Subnet4.add_pool_for_cfg.
  destruct (Subnet4.cfgs (snd (run cs Subnet4.new)) !! i) as [c|] eqn:E; [|done].
  destruct (run_keys cs Subnet4.new i) as [[c' Hc']|Hin].
  - by rewrite E.
  - cbn in Hc'. by rewrite lookup_empty in Hc'.
  - done.
Qed.

Lemma add_pool_for_cfg_unknown_witness :
  let cs := [AddConfig "192.168.1.0/24";
             AddPoolForCfg 1 "192.168.1.100" "192.168.1.200"] in
  (Id 999 ∉ fst (run cs Subnet4.new)) /\
  Subnet4.add_pool_for_cfg 999 "1.1.1.1" "1.1.1.1" (snd (run cs Subnet4.new)) =
    (false, snd (run cs Subnet4.new)).
Proof.
  assert (H : Id 999 ∉ fst (run [AddConfig "192.168.1.0/24";
             AddPoolForCfg 1 "192.168.1.100" "192.168.1.200"] Subnet4.new)).
  { apply (bool_decide_unpack _). by vm_compute. }
  split; [exact H|].
  exact (add_pool_for_cfg_unknown _ 999 "1.1.1.1" "1.1.1.1" H).
Defined.

(** C10: a call of [add_pool_for_cfg] on an identifier that is present
    leaves the counter, the identifier and the subnet string of the entry
    and every other entry as they were; the entry differs in its pool set
    alone. *)
Theorem add_pool_for_cfg_frame
    (s : Subnet4.t) (i : Z) (c : Subnet4.Cfg) (low high : string) :
  Subnet4.cfgs s !! i = Some c ->
  let s' := snd (Subnet4.add_pool_for_cfg i low high s) in
  fst (Subnet4.add_pool_for_cfg i low high s) = true /\
  Subnet4.max_id s' = Subnet4.max_id s /\
  Subnet4.cfgs s' !! i =
    Some (Subnet4.mkCfg (Subnet4.id c) (Subnet4.subnet c)
            (set_insert Subnet4.pool_less
               (Subnet4.mkPool (low ++ " - " ++ high)) (Subnet4.pools c))) /\
  (forall j, j <> i -> Subnet4.cfgs s' !! j = Subnet4.cfgs s !! j) /\
  dom (Subnet4.cfgs s') = dom (Subnet4.cfgs s).
Proof.
  intros Hi. cbv zeta. rewrite (add_pool_for_cfg_present s i c low high Hi).
  cbn [fst snd Subnet4.max_id Subnet4.cfgs].
  repeat split.
  - by rewrite lookup_insert_eq.
  - intros j Hj. by rewrite lookup_insert_ne.
  - apply dom_insert_lookup_L. by rewrite Hi.
Qed.

Lemma add_pool_for_cfg_frame_witness :
  let s := snd (Subnet4.add_config "10.0.0.0/8"
             (snd (Subnet4.add_config "192.168.1.0/24" Subnet4.new))) in
  let s' := snd (Subnet4.add_pool_for_cfg 1 "192.168.1.100" "192.168.1.200" s) in
  Subnet4.cfgs s !! 1 = Some (Subnet4.mkCfg 1 "192.168.1.0/24" []) /\
  Subnet4.max_id s' = 3 /\
  Subnet4.cfgs s' !! 2 = Some (Subnet4.mkCfg 2 "10.0.0.0/8" []).
Proof.
  assert (H : Subnet4.cfgs (snd (Subnet4.add_config "10.0.0.0/8"
             (snd (Subnet4.add_config "192.168.1.0/24" Subnet4.new)))) !! 1
           = Some (Subnet4.mkCfg 1 "192.168.1.0/24" [])) by reflexivity.
  split; [exact H|].
  destruct (add_pool_for_cfg_frame _ 1 _ "192.168.1.100" "192.168.1.200" H)
    as (_ & Hm & _ & Ho & _).
  split; [exact Hm|].
  rewrite (Ho 2) by lia. reflexivity.
Defined.

(** C4: on an identifier that is present, [add_pool_for_cfg] returns
    [true] and the entry's pool set then holds the pool whose range is
    [low], a space, a hyphen, a space and [high]. A second call with the
    same strings returns [true] again and changes nothing: the pool
    occurs once, and a pool set that was empty has one element. *)
Theorem add_pool_for_cfg_idempotent
    (s : Subnet4.t) (i : Z) (c : Subnet4.Cfg) (low high : string) :
  Subnet4.cfgs s !! i = Some c ->
  set_ok Subnet4.pool_less (Subnet4.pools c) ->
  let p := Subnet4.mkPool (low ++ " - " ++ high) in
  let r1 := Subnet4.add_pool_for_cfg i low high s in
  let r2 := Subnet4.add_pool_for_cfg i low high (snd r1) in
  fst r1 = true /\ fst r2 = true /\ snd r2 = snd r1 /\
  exists c', Subnet4.cfgs (snd r2) !! i = Some c' /\
    p ∈ Subnet4.pools c' /\
    count_occ Subnet4.Pool_eq_dec (Subnet4.pools c') p = 1%nat /\
    (Subnet4.pools c = [] -> Subnet4.pools c' = [p]).
Proof.
  intros Hi Hok. cbv zeta.
  set (p := Subnet4.mkPool (low ++ " - " ++ high)).
  rewrite (add_pool_for_cfg_present s i c low high Hi). cbn [fst snd].
  fold p.
  set (c1 := Subnet4.mkCfg _ _ _).
  set (s1 := Subnet4.mk _ _).
  assert (H1 : Subnet4.cfgs s1 !! i = Some c1)
    by (cbn [s1 Subnet4.cfgs]; by rewrite lookup_insert_eq).
  rewrite (add_pool_for_cfg_present s1 i c1 low high H1). cbn [fst snd].
  fold p.
  assert (Hidem : Subnet4.mkCfg (Subnet4.id c1) (Subnet4.subnet c1)
            (set_insert Subnet4.pool_less p (Subnet4.pools c1)) = c1).
  { cbn [c1 Subnet4.id Subnet4.subnet Subnet4.pools].
    by rewrite (set_insert_idem _ pool_less_irrefl). }
  rewrite Hidem.
  assert (Hs : Subnet4.mk (Subnet4.max_id s1) (<[i:=c1]> (Subnet4.cfgs s1)) = s1).
  { cbn [s1 Subnet4.max_id Subnet4.cfgs]. by rewrite insert_insert_eq. }
  rewrite Hs. repeat split.
  exists c1. split; [done|].
  assert (Hin : p ∈ Subnet4.pools c1).
  { cbn [c1 Subnet4.pools].
    destruct (set_insert_equiv _ pool_less_irrefl p (Subnet4.pools c))
      as (q & Hq & Hpq & Hqp).
    by rewrite <- (pool_equiv_eq p q Hpq Hqp) in Hq. }
  split; [done|]. split.
  - apply NoDup_count_occ'; [|by apply list_elem_of_In].
    apply NoDup_ListNoDup, (set_ok_NoDup _ pool_less_irrefl).
    cbn [c1 Subnet4.pools]. by apply set_insert_ok; [apply pool_less_trans|].
  - intros E. cbn [c1 Subnet4.pools]. by rewrite E.
Qed.

Lemma add_pool_for_cfg_idempotent_witness :
  let s := snd (Subnet4.add_config "192.168.1.0/24" Subnet4.new) in
  let r1 := Subnet4.add_pool_for_cfg 1 "192.168.1.100" "192.168.1.200" s in
  let r2 := Subnet4.add_pool_for_cfg 1 "192.168.1.100" "192.168.1.200" (snd r1) in
  Subnet4.cfgs s !! 1 = Some (Subnet4.mkCfg 1 "192.168.1.0/24" []) /\
  set_ok Subnet4.pool_less [] /\
  fst r1 = true /\ fst r2 = true /\ snd r2 = snd r1.
Proof.
  cbv zeta.
  assert (H : Subnet4.cfgs (snd (Subnet4.add_config "192.168.1.0/24" Subnet4.new))
                !! 1 = Some (Subnet4.mkCfg 1 "192.168.1.0/24" []))
    by reflexivity.
  assert (Hok : set_ok Subnet4.pool_less []) by constructor.
  split; [exact H|]. split; [exact Hok|].
  destruct (add_pool_for_cfg_idempotent _ 1 _ "192.168.1.100" "192.168.1.200"
              H Hok) as (Ha & Hb & Hc & _).
  exact (conj Ha (conj Hb Hc)).
Defined.

(** ** OptionData *)

Lemma option_less_irrefl (o : OptionData.Option) :
  OptionData.option_less o o = false.
Proof. apply ltb_irrefl. Qed.

Lemma option_less_trans (o p q : OptionData.Option) :
  OptionData.option_less o p = true -> OptionData.option_less p q = true ->
  OptionData.option_less o q = true.
Proof. apply ltb_trans. Qed.

Lemma option_less_same_name (o p : OptionData.Option) :
  OptionData.name o = OptionData.name p ->
  OptionData.option_less o p = false /\ OptionData.option_less p o = false.
Proof.
  unfold OptionData.option_less. intros ->. by rewrite ltb_irrefl.
Qed.

Lemma option_less_other_name (o p : OptionData.Option) :
  OptionData.name o <> OptionData.name p ->
  OptionData.option_less o p = true \/ OptionData.option_less p o = true.
Proof.
  unfold OptionData.option_less. intros Hne.
  destruct (String.ltb (OptionData.name o) (OptionData.name p)) eqn:E1; [by left|].
  destruct (String.ltb (OptionData.name p) (OptionData.name o)) eqn:E2; [by right|].
  destruct Hne. by apply ltb_total.
Qed.

(** C5: when an option named [n] is stored, [add_option] with the name
    [n] returns the state it was given, and so does [add_option_always],
    which is [add_option] with the flag set: the number of options is the
    same and the option named [n] is the one stored before, with its data
    and its flag. *)
Theorem add_option_existing
    (od : OptionData.t) (o : OptionData.Option) (d : string) (a : bool) :
  set_ok OptionData.option_less (OptionData.options od) ->
  o ∈ OptionData.options od ->
  let n := OptionData.name o in
  OptionData.add_option n d a od = od /\
  OptionData.add_option_always n d od = OptionData.add_option n d true od /\
  OptionData.add_option_always n d od = od /\
  length (OptionData.options (OptionData.add_option n d a od)) =
    length (OptionData.options od) /\
  (forall o', o' ∈ OptionData.options (OptionData.add_option n d a od) ->
     OptionData.name o' = n -> o' = o).
Proof.
  intros Hok Ho. cbv zeta.
  assert (Hnop : forall a', OptionData.add_option (OptionData.name o) d a' od = od).
  { intros a'. unfold OptionData.add_option. destruct od as [l]. f_equal.
    apply (set_insert_present _ option_less_trans _ o); [done|done| |];
      by apply option_less_same_name. }
  unfold OptionData.add_option_always. rewrite !Hnop.
  repeat split.
  intros o' Ho' Hn.
  apply (set_ok_equiv_eq _ o' o _ Hok Ho' Ho); by apply option_less_same_name.
Qed.

Lemma add_option_existing_witness :
  let od := OptionData.add_option "routers" "192.168.1.1" false OptionData.new in
  let o := OptionData.mkOption "routers" "192.168.1.1" false in
  set_ok OptionData.option_less (OptionData.options od) /\
  o ∈ OptionData.options od /\
  OptionData.add_option "routers" "192.168.2.1" true od = od.
Proof.
  cbv zeta.
  assert (Hok : set_ok OptionData.option_less (OptionData.options
            (OptionData.add_option "routers" "192.168.1.1" false OptionData.new)))
    by (repeat constructor).
  assert (Hin : OptionData.mkOption "routers" "192.168.1.1" false ∈
            OptionData.options
              (OptionData.add_option "routers" "192.168.1.1" false OptionData.new))
    by (simpl; left).
  split; [exact Hok|]. split; [exact Hin|].
  exact (proj1 (add_option_existing _ _ "192.168.2.1" true Hok Hin)).
Defined.

Lemma Option_to_json_fields (o : OptionData.Option) :
  OptionData.Option_to_json o =
  JObject [("always-send", JBool (OptionData.always_send o));
           ("data", JString (OptionData.data o));
           ("name", JString (OptionData.name o))].
Proof. reflexivity. Qed.

Lemma array_names_to_json (od : OptionData.t) :
  array_names (OptionData.to_json od) = map OptionData.name (OptionData.options od).
Proof.
  unfold OptionData.to_json, array_names.
  induction (OptionData.options od) as [|o l IH]; [done|].
  cbn [map flat_map]. rewrite IH. reflexivity.
Qed.

Lemma add_options_cons (x : OptionData.Option) (l : list OptionData.Option)
    (od : OptionData.t) :
  add_options (x :: l) od =
  add_options l (OptionData.mk (set_insert OptionData.option_less x
                                  (OptionData.options od))).
Proof. unfold add_options, OptionData.add_option. by destruct x. Qed.

(** The options of a state built by [add_option] calls keep the
    container's invariant. *)
Lemma add_options_ok (l : list OptionData.Option) : forall od : OptionData.t,
  set_ok OptionData.option_less (OptionData.options od) ->
  set_ok OptionData.option_less (OptionData.options (add_options l od)).
Proof.
  induction l as [|x l IH]; intros od Hok; [done|].
  rewrite add_options_cons. apply IH. cbn [OptionData.options].
  by apply set_insert_ok; [apply option_less_trans|].
Qed.

Lemma add_options_perm (l : list OptionData.Option) : forall od : OptionData.t,
  NoDup (map OptionData.name l) ->
  (forall o o', o ∈ l -> o' ∈ OptionData.options od ->
     OptionData.name o <> OptionData.name o') ->
  OptionData.options (add_options l od) ≡ₚ (OptionData.options od ++ l)%list.
Proof.
  induction l as [|x l IH]; intros od Hnd Hfresh.
  - by rewrite app_nil_r.
  - rewrite add_options_cons. cbn [map] in Hnd.
    apply NoDup_cons in Hnd as [Hx Hnd].
    assert (Hins : set_insert OptionData.option_less x (OptionData.options od)
                   ≡ₚ x :: OptionData.options od).
    { apply set_insert_perm. intros y Hy. apply option_less_other_name.
      apply Hfresh; [left|done]. }
    rewrite IH; cbn [OptionData.options].
    + rewrite Hins. apply Permutation_middle.
    + done.
    + intros o o' Ho [->|Ho']%set_insert_subset.
      * intros E. apply Hx. rewrite <- E.
        apply list_elem_of_In, in_map, list_elem_of_In, Ho.
      * apply Hfresh; [by right|done].
Qed.

Lemma first_occurrences_ext (l : list OptionData.Option) :
  forall seen1 seen2 : list string,
  (forall x, x ∈ seen1 <-> x ∈ seen2) ->
  first_occurrences seen1 l = first_occurrences seen2 l.
Proof.
  induction l as [|o l IH]; intros seen1 seen2 Hs; [done|].
  cbn [first_occurrences].
  rewrite (bool_decide_ext _ _ (Hs (OptionData.name o))).
  destruct (bool_decide _); [by apply IH|].
  f_equal. apply IH. intros x. rewrite !elem_of_cons, Hs. tauto.
Qed.

Lemma add_options_first (l : list OptionData.Option) :
  forall od : OptionData.t,
  set_ok OptionData.option_less (OptionData.options od) ->
  OptionData.options (add_options l od) ≡ₚ
    (OptionData.options od ++
     first_occurrences (map OptionData.name (OptionData.options od)) l)%list.
Proof.
  induction l as [|x l IH]; intros od Hok.
  - by rewrite app_nil_r.
  - rewrite add_options_cons. cbn [first_occurrences].
    case_bool_decide as Hx.
    + apply list_elem_of_In, in_map_iff in Hx as (o & Ho & Hin).
      apply list_elem_of_In in Hin.
      rewrite (set_insert_present _ option_less_trans x o); [..|done|done| |];
        [|by apply option_less_same_name..].
      destruct od as [lo]. by apply IH.
    + assert (Hp : set_insert OptionData.option_less x (OptionData.options od)
                   ≡ₚ x :: OptionData.options od).
      { apply set_insert_perm. intros y Hy. apply option_less_other_name.
        intros E. apply Hx. rewrite E.
        by apply list_elem_of_In, in_map, list_elem_of_In. }
      rewrite IH; cbn [OptionData.options];
        [|by apply set_insert_ok; [apply option_less_trans|]].
      rewrite (first_occurrences_ext l _
                 (OptionData.name x :: map OptionData.name (OptionData.options od))).
      * rewrite Hp. apply Permutation_middle.
      * intros n. rewrite (Permutation_map OptionData.name Hp). done.
Qed.

Lemma first_occurrences_nodup (l : list OptionData.Option) :
  forall seen : list string,
  NoDup (map OptionData.name l) ->
  (forall o, o ∈ l -> OptionData.name o ∉ seen) ->
  first_occurrences seen l = l.
Proof.
  induction l as [|o l IH]; intros seen Hnd Hs; [done|].
  cbn [first_occurrences map] in *. apply NoDup_cons in Hnd as [Ho Hnd].
  rewrite bool_decide_eq_false_2 by (apply Hs; left).
  f_equal. apply IH; [done|].
  intros o' Ho'. rewrite not_elem_of_cons. split; [|apply Hs; by right].
  intros E. apply Ho. rewrite <- E.
  by apply list_elem_of_In, in_map, list_elem_of_In.
Qed.

(** C6: whatever the calls of [add_option] on an empty [OptionData]
    were, the serialized array holds one object, with the members
    ["name"], ["data"] and ["always-send"], for each option stored, in
    strictly ascending byte-wise order of the names; the options stored
    are those of the calls whose name no earlier call had, all of them
    when the names are pairwise distinct. So two lists of options with
    pairwise distinct names that are permutations of each other, added
    one by one, serialize to the same array. *)
Theorem option_data_order (l1 : list OptionData.Option) :
  (exists opts,
     OptionData.to_json (add_options l1 OptionData.new) =
       JArray (map (fun o => JObject
                      [("always-send", JBool (OptionData.always_send o));
                       ("data", JString (OptionData.data o));
                       ("name", JString (OptionData.name o))]) opts) /\
     opts ≡ₚ first_occurrences [] l1 /\
     (NoDup (map OptionData.name l1) -> opts ≡ₚ l1) /\
     StronglySorted (fun a b => String.ltb (OptionData.name a)
                                  (OptionData.name b) = true) opts) /\
  StronglySorted (fun a b => String.ltb a b = true)
    (array_names (OptionData.to_json (add_options l1 OptionData.new))) /\
  length (array_names (OptionData.to_json (add_options l1 OptionData.new))) =
    length (first_occurrences [] l1) /\
  forall l2, NoDup (map OptionData.name l1) -> l1 ≡ₚ l2 ->
    OptionData.to_json (add_options l1 OptionData.new) =
    OptionData.to_json (add_options l2 OptionData.new).
Proof.
  assert (Hok : forall l, set_ok OptionData.option_less
                  (OptionData.options (add_options l OptionData.new))).
  { intros l. apply add_options_ok. constructor. }
  assert (Hfirst : OptionData.options (add_options l1 OptionData.new)
                   ≡ₚ first_occurrences [] l1).
  { by rewrite add_options_first by constructor. }
  split; [|split; [|split]].
  - exists (OptionData.options (add_options l1 OptionData.new)).
    split; [|split; [|split]].
    + reflexivity.
    + exact Hfirst.
    + intros Hnd. rewrite Hfirst, first_occurrences_nodup; [done|done|].
      intros o _. apply not_elem_of_nil.
    + apply Hok.
  - rewrite array_names_to_json. clear Hfirst.
    specialize (Hok l1). unfold set_ok in Hok.
    induction Hok as [|o l Hl IH Ho]; [constructor|].
    cbn [map]. constructor; [done|].
    apply Forall_forall. intros n Hn.
    apply list_elem_of_In, in_map_iff in Hn as (p & <- & Hp).
    apply list_elem_of_In in Hp. by eapply Forall_forall in Ho.
  - by rewrite array_names_to_json, length_map, Hfirst.
  - intros l2 Hnd Hperm. unfold OptionData.to_json. do 2 f_equal.
    apply (set_ok_unique _ option_less_irrefl option_less_trans); [done|done|].
    assert (Hnd2 : NoDup (map OptionData.name l2)).
    { pose proof (Permutation_map OptionData.name Hperm) as Hm.
      by rewrite <- Hm. }
    rewrite !add_options_perm; [done|done| |done|];
      by intros ? ? ? ?%elem_of_nil.
Qed.

Lemma option_data_order_witness :
  let l1 := [OptionData.mkOption "routers" "192.168.50.1" false;
             OptionData.mkOption "domain-name-servers" "192.168.50.1, 8.8.8.8" true] in
  let l2 := [OptionData.mkOption "domain-name-servers" "192.168.50.1, 8.8.8.8" true;
             OptionData.mkOption "routers" "192.168.50.1" false] in
  NoDup (map OptionData.name l1) /\ l1 ≡ₚ l2 /\
  OptionData.to_json (add_options l1 OptionData.new) =
  OptionData.to_json (add_options l2 OptionData.new) /\
  length (array_names (OptionData.to_json (add_options l1 OptionData.new))) = 2%nat.
Proof.
  cbv zeta.
  assert (Hnd : NoDup (map OptionData.name
            [OptionData.mkOption "routers" "192.168.50.1" false;
             OptionData.mkOption "domain-name-servers" "192.168.50.1, 8.8.8.8" true])).
  { apply (bool_decide_unpack _). by vm_compute. }
  split; [exact Hnd|]. split; [apply perm_swap|].
  split.
  - exact (proj2 (proj2 (proj2 (option_data_order _))) _ Hnd (perm_swap _ _ _)).
  - exact (proj1 (proj2 (proj2 (option_data_order _)))).
Defined.

(** ** Serialization of Dhcp4 and of the root *)

Lemma InterfacesConfig_empty_iff (i : InterfacesConfig.t) :
  InterfacesConfig.empty i = true <-> InterfacesConfig.interfaces i = [].
Proof.
  unfold InterfacesConfig.empty.
  by destruct (InterfacesConfig.interfaces i).
Qed.

Lemma LeaseDatabase_empty_iff (l : LeaseDatabase.t) :
  LeaseDatabase.empty l = true <->
  LeaseDatabase.type l = "" \/ LeaseDatabase.name l = "".
Proof.
  unfold LeaseDatabase.empty.
  destruct (LeaseDatabase.type l), (LeaseDatabase.name l); simpl;
    intuition congruence.
Qed.

Lemma Subnet4_empty_iff (s : Subnet4.t) :
  Subnet4.empty s = true <-> size (Subnet4.cfgs s) = 0%nat.
Proof.
  unfold Subnet4.empty. rewrite bool_decide_eq_true. symmetry.
  apply map_size_empty_iff.
Qed.

Lemma OptionData_empty_iff (o : OptionData.t) :
  OptionData.empty o = true <-> OptionData.options o = [].
Proof.
  unfold OptionData.empty. by destruct (OptionData.options o).
Qed.

(** The two tests of the lease database, the header's and the
    standalone program's, agree. *)
Lemma standalone_LeaseDatabase_empty (l : LeaseDatabase.t) :
  Standalone.LeaseDatabase_empty l = LeaseDatabase.empty l.
Proof.
  unfold Standalone.LeaseDatabase_empty, LeaseDatabase.empty.
  by destruct (LeaseDatabase.type l), (LeaseDatabase.name l).
Qed.

Lemma standalone_document `{Subnet4.Iteration} (d : Dhcp4.t) :
  fst (Standalone.Dhcp4_to_json d) = fst (Dhcp4.to_json d).
Proof.
  unfold Dhcp4.to_json, Standalone.Dhcp4_to_json.
  rewrite standalone_LeaseDatabase_empty.
  by case_gates d.
Qed.

(** C1: the serialized [Dhcp4] always has ["valid-lifetime"]. It has
    nothing else when there is no interface; ["interfaces-config"] and
    nothing more when the type or the name of the lease database is the
    empty string; ["lease-database"] too and nothing more when there is no
    subnet entry; and ["subnet4"] otherwise. Both serializers, the
    library's and the standalone program's, build this document. *)
Theorem dhcp4_to_json_gates `{Subnet4.Iteration} (d : Dhcp4.t) :
  let j := fst (Dhcp4.to_json d) in
  let vl := ("valid-lifetime", JUnsigned (Dhcp4.valid_lifetime d)) in
  let ic := ("interfaces-config",
             InterfacesConfig.to_json (Dhcp4.interface_config d)) in
  let ld := ("lease-database", LeaseDatabase.to_json (Dhcp4.lease_database d)) in
  let s4 := ("subnet4", Subnet4.to_json (Dhcp4.subnet4 d)) in
  let od := ("option-data", OptionData.to_json (Dhcp4.option_data d)) in
  In "valid-lifetime" (Json.keys j) /\
  j = JObject
        (if InterfacesConfig.empty (Dhcp4.interface_config d) then [vl]
         else if LeaseDatabase.empty (Dhcp4.lease_database d) then [ic; vl]
         else if Subnet4.empty (Dhcp4.subnet4 d) then [ic; ld; vl]
         else if OptionData.empty (Dhcp4.option_data d) then [ic; ld; s4; vl]
         else [ic; ld; od; s4; vl]) /\
  fst (Standalone.Dhcp4_to_json d) = j /\
  (InterfacesConfig.empty (Dhcp4.interface_config d) = true <->
     InterfacesConfig.interfaces (Dhcp4.interface_config d) = []) /\
  (LeaseDatabase.empty (Dhcp4.lease_database d) = true <->
     LeaseDatabase.type (Dhcp4.lease_database d) = "" \/
     LeaseDatabase.name (Dhcp4.lease_database d) = "") /\
  (Subnet4.empty (Dhcp4.subnet4 d) = true <->
     size (Subnet4.cfgs (Dhcp4.subnet4 d)) = 0%nat).
Proof.
  cbv zeta.
  unfold Dhcp4.to_json, Standalone.Dhcp4_to_json.
  rewrite standalone_LeaseDatabase_empty.
  split; [|split; [|split]].
  - case_gates d; apply list_elem_of_In; vm_compute; set_solver.
  - by case_gates d.
  - by case_gates d.
  - split; [apply InterfacesConfig_empty_iff|].
    split; [apply LeaseDatabase_empty_iff|apply Subnet4_empty_iff].
Qed.

(** C9: for every [Dhcp4] the standalone program's serializer and the
    library's build the same document, under one iteration order of the
    subnet map. With no option the first returns early and the second
    skips the field. What they write to [std::cerr] differs. *)
Theorem dhcp4_to_json_standalone `{Subnet4.Iteration} (d : Dhcp4.t) :
  fst (Standalone.Dhcp4_to_json d) = fst (Dhcp4.to_json d) /\
  fst (Standalone.KeaConfig_to_json (KeaConfig.mk d)) =
    fst (KeaConfig.to_json (KeaConfig.mk d)).
Proof.
  split; [apply standalone_document|].
  unfold Standalone.KeaConfig_to_json, KeaConfig.to_json. cbn [KeaConfig.dhcp4].
  pose proof (standalone_document d) as E.
  destruct (Standalone.Dhcp4_to_json d), (Dhcp4.to_json d).
  cbn [fst] in *. by rewrite E.
Qed.

(** C7: with an interface, a lease database whose type and name are not
    empty, a subnet entry and no option, the document has the four fields
    ["valid-lifetime"], ["interfaces-config"], ["lease-database"] and
    ["subnet4"], no ["option-data"], and the library's serializer writes
    no diagnostic. *)
Theorem dhcp4_to_json_no_options `{Subnet4.Iteration} (d : Dhcp4.t) :
  InterfacesConfig.interfaces (Dhcp4.interface_config d) <> [] ->
  LeaseDatabase.type (Dhcp4.lease_database d) <> "" ->
  LeaseDatabase.name (Dhcp4.lease_database d) <> "" ->
  Subnet4.cfgs (Dhcp4.subnet4 d) <> ∅ ->
  OptionData.options (Dhcp4.option_data d) = [] ->
  Dhcp4.to_json d =
    (JObject
       [("interfaces-config", InterfacesConfig.to_json (Dhcp4.interface_config d));
        ("lease-database", LeaseDatabase.to_json (Dhcp4.lease_database d));
        ("subnet4", Subnet4.to_json (Dhcp4.subnet4 d));
        ("valid-lifetime", JUnsigned (Dhcp4.valid_lifetime d))], []) /\
  Json.keys (fst (Dhcp4.to_json d)) =
    ["interfaces-config"; "lease-database"; "subnet4"; "valid-lifetime"] /\
  Json.get "option-data" (fst (Dhcp4.to_json d)) = None /\
  fst (Standalone.Dhcp4_to_json d) = fst (Dhcp4.to_json d).
Proof.
  intros Hi Ht Hn Hs Ho.
  assert (Ei : InterfacesConfig.empty (Dhcp4.interface_config d) = false).
  { apply not_true_is_false. by rewrite InterfacesConfig_empty_iff. }
  assert (El : LeaseDatabase.empty (Dhcp4.lease_database d) = false).
  { apply not_true_is_false. rewrite LeaseDatabase_empty_iff. tauto. }
  assert (Es : Subnet4.empty (Dhcp4.subnet4 d) = false).
  { apply not_true_is_false. unfold Subnet4.empty.
    by rewrite bool_decide_eq_true. }
  assert (Eo : OptionData.empty (Dhcp4.option_data d) = true).
  { by apply OptionData_empty_iff. }
  assert (E : Dhcp4.to_json d =
    (JObject
       [("interfaces-config", InterfacesConfig.to_json (Dhcp4.interface_config d));
        ("lease-database", LeaseDatabase.to_json (Dhcp4.lease_database d));
        ("subnet4", Subnet4.to_json (Dhcp4.subnet4 d));
        ("valid-lifetime", JUnsigned (Dhcp4.valid_lifetime d))], [])).
  { unfold Dhcp4.to_json. by rewrite Ei, El, Es, Eo. }
  split; [exact E|]. rewrite standalone_document, E. by repeat split.
Qed.

Lemma dhcp4_to_json_no_options_witness :
  let s := snd (Subnet4.add_pool_for_cfg 1 "10.0.1.100" "10.0.1.150"
                  (snd (Subnet4.add_config "10.0.1.0/24" Subnet4.new))) in
  let d := Dhcp4.mk 3000 (InterfacesConfig.mk ["ethX"])
             (LeaseDatabase.mk "memfile" false "leases.db") s OptionData.new in
  Json.keys (fst (Dhcp4.to_json d)) =
    ["interfaces-config"; "lease-database"; "subnet4"; "valid-lifetime"] /\
  Json.get "option-data" (fst (Dhcp4.to_json d)) = None.
Proof.
  cbv zeta.
  refine (let H := dhcp4_to_json_no_options
            (Dhcp4.mk 3000 (InterfacesConfig.mk ["ethX"])
               (LeaseDatabase.mk "memfile" false "leases.db")
               (snd (Subnet4.add_pool_for_cfg 1 "10.0.1.100" "10.0.1.150"
                       (snd (Subnet4.add_config "10.0.1.0/24" Subnet4.new))))
               OptionData.new) _ _ _ _ _ in
          conj (proj1 (proj2 H)) (proj1 (proj2 (proj2 H)))).
  - discriminate.
  - discriminate.
  - discriminate.
  - apply insert_non_empty.
  - reflexivity.
Defined.

(** C8: the root serializes to an object whose one field, ["Dhcp4"], is
    the serialized [Dhcp4]; the default root holds the lifetime 4000, the
    interfaces ["aaa"] and ["bbb"], and the lease database of type
    ["memfile"], persistent, named ["/var/lib/kea/dhcp4.leases"]. *)
Theorem kea_config_root `{Subnet4.Iteration} (k : KeaConfig.t) :
  fst (KeaConfig.to_json k) =
    JObject [("Dhcp4", fst (Dhcp4.to_json (KeaConfig.dhcp4 k)))] /\
  Json.keys (fst (KeaConfig.to_json k)) = ["Dhcp4"] /\
  snd (KeaConfig.to_json k) = snd (Dhcp4.to_json (KeaConfig.dhcp4 k)) /\
  Dhcp4.valid_lifetime (KeaConfig.dhcp4 KeaConfig.default) = 4000 /\
  InterfacesConfig.interfaces
    (Dhcp4.interface_config (KeaConfig.dhcp4 KeaConfig.default)) = ["aaa"; "bbb"] /\
  Dhcp4.lease_database (KeaConfig.dhcp4 KeaConfig.default) =
    LeaseDatabase.mk "memfile" true "/var/lib/kea/dhcp4.leases".
Proof.
  unfold KeaConfig.to_json.
  destruct (Dhcp4.to_json (KeaConfig.dhcp4 k)) as [jd diag].
  by repeat split.
Qed.

(** ** The test suite's expectations *)

Example subnet4_management :
  fst (run Scenarios.subnet4_calls Subnet4.new) =
    [Id 1; Id 2; Status true; Status true; Status false] /\
  Subnet4.max_id (snd (run Scenarios.subnet4_calls Subnet4.new)) = 3 /\
  Subnet4.pools <$> Subnet4.cfgs (snd (run Scenarios.subnet4_calls Subnet4.new)) !! 1 =
    Some [Subnet4.mkPool "192.168.1.100 - 192.168.1.200";
          Subnet4.mkPool "192.168.1.50 - 192.168.1.60"].
Proof. by vm_compute. Qed.

Example empty_dhcp4_document :
  Dhcp4.to_json Dhcp4.default =
    (JObject [("valid-lifetime", JUnsigned 0)],
     ["interfaces-config is empty during JSON serialization"]).
Proof. reflexivity. Qed.

Example happy_path_document :
  Dhcp4.to_json Scenarios.happy_path =
    (JObject
       [("interfaces-config", JObject [("interfaces", JArray [JString "enp0s1"])]);
        ("lease-database",
         JObject [("name", JString "kea-leases4.csv");
                  ("persist", JBool true);
                  ("type", JString "memfile")]);
        ("option-data",
         JArray
           [JObject [("always-send", JBool true);
                     ("data", JString "192.168.50.1, 8.8.8.8");
                     ("name", JString "domain-name-servers")];
            JObject [("always-send", JBool false);
                     ("data", JString "192.168.50.1");
                     ("name", JString "routers")]]);
        ("subnet4",
         JArray
           [JObject
              [("id", JUnsigned 1);
               ("pools",
                JArray [JObject [("pool", JString "192.168.50.10 - 192.168.50.20")]]);
               ("subnet", JString "192.168.50.0/24")]]);
        ("valid-lifetime", JUnsigned 7200)],
     []).
Proof. by vm_compute. Qed.

Example no_options_keys :
  Json.keys (fst (Dhcp4.to_json Scenarios.no_options)) =
    ["interfaces-config"; "lease-database"; "subnet4"; "valid-lifetime"] /\
  snd (Dhcp4.to_json Scenarios.no_options) = [] /\
  snd (Standalone.Dhcp4_to_json Scenarios.no_options) = ["option data is empty"].
Proof. by vm_compute. Qed.

Example no_lease_name_keys :
  Json.keys (fst (Dhcp4.to_json Scenarios.no_lease_name)) =
    ["interfaces-config"; "valid-lifetime"].
Proof. by vm_compute. Qed.

Example standalone_main_keys :
  Json.keys (fst (Standalone.KeaConfig_to_json Standalone.main_config)) = ["Dhcp4"] /\
  Json.keys <$> Json.get "Dhcp4"
                  (fst (Standalone.KeaConfig_to_json Standalone.main_config)) =
    Some ["interfaces-config"; "lease-database"; "option-data"; "subnet4";
          "valid-lifetime"].
Proof. by vm_compute. Qed.

(** * Further properties *)

(** ** The comparison operators *)

(** X1: [Pool::operator<] is a strict total order on pools: no pool is
    below itself, the order is transitive, and two pools neither of which
    is below the other are the same pool. *)
Theorem pool_less_strict_total (p q r : Subnet4.Pool) :
  Subnet4.pool_less p p = false /\
  (Subnet4.pool_less p q = true -> Subnet4.pool_less q r = true ->
   Subnet4.pool_less p r = true) /\
  (Subnet4.pool_less p q = true -> Subnet4.pool_less q p = false) /\
  (Subnet4.pool_less p q = false /\ Subnet4.pool_less q p = false <-> p = q).
Proof.
  split; [apply pool_less_irrefl|]. split; [apply pool_less_trans|]. split.
  - intros Hpq. destruct (Subnet4.pool_less q p) eqn:Hqp; [|done].
    pose proof (pool_less_trans _ _ _ Hpq Hqp) as H.
    by rewrite pool_less_irrefl in H.
  - split; [intros [? ?]; by apply pool_equiv_eq|].
    intros <-. by rewrite pool_less_irrefl.
Qed.

(** X2: [Option::operator<] looks at the name alone: two options are
    equivalent for it (neither below the other) exactly when they have the
    same name, whatever their data and flag; and it is irreflexive and
    transitive. *)
Theorem option_less_by_name (o p q : OptionData.Option) :
  OptionData.option_less o o = false /\
  (OptionData.option_less o p = true -> OptionData.option_less p q = true ->
   OptionData.option_less o q = true) /\
  (OptionData.option_less o p = false /\ OptionData.option_less p o = false <->
   OptionData.name o = OptionData.name p).
Proof.
  split; [apply option_less_irrefl|]. split; [apply option_less_trans|].
  split; [|apply option_less_same_name].
  intros [H1 H2]. by apply ltb_total.
Qed.

(** ** The serializers of the parts *)

Lemma map_injective {A B : Type} (f : A -> B) :
  (forall x y, f x = f y -> x = y) ->
  forall l k : list A, map f l = map f k -> l = k.
Proof.
  intros Hf. induction l as [|x l IH]; intros [|y k]; simpl; try done.
  intros [= Hxy Hlk]. f_equal; auto.
Qed.

(** X3: the serialized lease database has the three fields ["type"],
    ["persist"] and ["name"] with the values stored, also when it counts
    as empty, and two lease databases that serialize alike are equal. *)
Theorem lease_database_to_json_fields (l k : LeaseDatabase.t) :
  Json.keys (LeaseDatabase.to_json l) = ["name"; "persist"; "type"] /\
  Json.get "type" (LeaseDatabase.to_json l) = Some (JString (LeaseDatabase.type l)) /\
  Json.get "persist" (LeaseDatabase.to_json l) = Some (JBool (LeaseDatabase.persist l)) /\
  Json.get "name" (LeaseDatabase.to_json l) = Some (JString (LeaseDatabase.name l)) /\
  (LeaseDatabase.to_json l = LeaseDatabase.to_json k -> l = k).
Proof.
  repeat split.
  destruct l, k. by intros [= -> -> ->].
Qed.

(** X4: the serialized interfaces are one field, ["interfaces"], holding
    the names in the order given; the array is empty exactly when
    [empty ()] holds, and two configurations that serialize alike are
    equal. *)
Theorem interfaces_config_to_json_fields (i k : InterfacesConfig.t) :
  InterfacesConfig.to_json i =
    JObject [("interfaces", JArray (map JString (InterfacesConfig.interfaces i)))] /\
  (InterfacesConfig.to_json i = JObject [("interfaces", JArray [])] <->
   InterfacesConfig.empty i = true) /\
  (InterfacesConfig.to_json i = InterfacesConfig.to_json k -> i = k).
Proof.
  split; [done|]. split.
  - rewrite InterfacesConfig_empty_iff.
    destruct i as [[|x l]]; cbn; split; try done; intros [=].
  - destruct i as [l], k as [l']. intros [= H]. f_equal.
    revert H. apply map_injective. by intros x y [=].
Qed.

Lemma Cfg_to_json_fields (c : Subnet4.Cfg) :
  Subnet4.Cfg_to_json c =
  JObject [("id", JUnsigned (Subnet4.id c));
           ("pools", JArray (map Subnet4.Pool_to_json (Subnet4.pools c)));
           ("subnet", JString (Subnet4.subnet c))].
Proof. reflexivity. Qed.

Lemma Pool_to_json_inj (p q : Subnet4.Pool) :
  Subnet4.Pool_to_json p = Subnet4.Pool_to_json q -> p = q.
Proof. destruct p, q. by intros [= ->]. Qed.

Lemma Cfg_to_json_inj (c e : Subnet4.Cfg) :
  Subnet4.Cfg_to_json c = Subnet4.Cfg_to_json e -> c = e.
Proof.
  rewrite !Cfg_to_json_fields. destruct c, e. cbn.
  intros [= -> Hp ->]. f_equal. revert Hp. apply map_injective, Pool_to_json_inj.
Qed.

(** X5: a serialized subnet entry has the fields ["id"], ["subnet"] and
    ["pools"], the last an array with one [{"pool": range}] object for each
    pool in the order of the pool set; entries that serialize alike are
    equal. *)
Theorem cfg_to_json_fields (c e : Subnet4.Cfg) :
  Json.get "id" (Subnet4.Cfg_to_json c) = Some (JUnsigned (Subnet4.id c)) /\
  Json.get "subnet" (Subnet4.Cfg_to_json c) = Some (JString (Subnet4.subnet c)) /\
  Json.get "pools" (Subnet4.Cfg_to_json c) =
    Some (JArray (map (fun p => JObject [("pool", JString (Subnet4.range p))])
                      (Subnet4.pools c))) /\
  (Subnet4.Cfg_to_json c = Subnet4.Cfg_to_json e -> c = e).
Proof.
  repeat split. apply Cfg_to_json_inj.
Qed.

Lemma Option_to_json_inj (o p : OptionData.Option) :
  OptionData.Option_to_json o = OptionData.Option_to_json p -> o = p.
Proof. rewrite !Option_to_json_fields. destruct o, p. by intros [= -> -> ->]. Qed.

(** X6: the serialized [OptionData] is an array with one element for
    each stored option, it is the empty array exactly when [empty ()]
    holds, and two [OptionData] that serialize alike are equal. *)
Theorem option_data_to_json_inj (o p : OptionData.t) :
  (exists items, OptionData.to_json o = JArray items /\
                 length items = length (OptionData.options o)) /\
  (OptionData.to_json o = JArray [] <-> OptionData.empty o = true) /\
  (OptionData.to_json o = OptionData.to_json p -> o = p).
Proof.
  split; [|split].
  - eexists. split; [reflexivity|]. by rewrite length_map.
  - rewrite OptionData_empty_iff. unfold OptionData.to_json.
    destruct (OptionData.options o); split; try done; intros [=].
  - destruct o as [l], p as [k]. unfold OptionData.to_json. cbn.
    intros [= H]. f_equal. revert H. apply map_injective, Option_to_json_inj.
Qed.

(** ** The serialized subnet array *)

(** X7: whatever the order in which the subnet map is iterated, the
    serialized [Subnet4] is an array holding the serialized form of every
    entry once: it is a permutation of the entries serialized in any
    other order and has as many elements as the map has entries. *)
Theorem subnet4_to_json_entries (I1 I2 : Subnet4.Iteration) (s : Subnet4.t) :
  exists l1 l2,
    @Subnet4.to_json I1 s = JArray l1 /\
    @Subnet4.to_json I2 s = JArray l2 /\
    l1 ≡ₚ l2 /\
    l1 ≡ₚ map (fun kc => Subnet4.Cfg_to_json (snd kc))
              (map_to_list (Subnet4.cfgs s)) /\
    length l1 = size (Subnet4.cfgs s).
Proof.
  unfold Subnet4.to_json. do 2 eexists.
  split; [reflexivity|]. split; [reflexivity|].
  assert (H : forall I : Subnet4.Iteration,
            map Subnet4.Cfg_to_json (map snd (@Subnet4.iterate I (Subnet4.cfgs s)))
            ≡ₚ map (fun kc => Subnet4.Cfg_to_json (snd kc))
                   (map_to_list (Subnet4.cfgs s))).
  { intros I. rewrite map_map. apply Permutation_map, Subnet4.iterate_perm. }
  split; [by rewrite !H|]. split; [apply H|].
  rewrite (Permutation_length (H I1)), length_map. apply length_map_to_list.
Qed.

(** X8: the serialized [Subnet4] is the empty array exactly when
    [empty ()] holds, in every iteration order. *)
Theorem subnet4_to_json_empty `{Subnet4.Iteration} (s : Subnet4.t) :
  Subnet4.to_json s = JArray [] <-> Subnet4.empty s = true.
Proof.
  unfold Subnet4.to_json, Subnet4.empty. rewrite bool_decide_eq_true.
  pose proof (Subnet4.iterate_perm (Subnet4.cfgs s)) as Hp.
  split.
  - intros [= E]. apply map_eq_nil, map_eq_nil in E.
    rewrite E in Hp. apply Permutation_nil_l in Hp.
    by apply map_to_list_empty_iff.
  - intros E. rewrite E, map_to_list_empty in Hp.
    apply Permutation_nil_r in Hp. by rewrite E, Hp.
Qed.

(** ** Invariants of the states a run of calls reaches *)

Lemma run_app (cs1 cs2 : list call) (s : Subnet4.t) :
  snd (run (cs1 ++ cs2) s) = snd (run cs2 (snd (run cs1 s))).
Proof.
  revert s. induction cs1 as [|c cs1 IH]; intros s; [done|].
  rewrite <- app_comm_cons, !run_cons. cbn [snd]. apply IH.
Qed.

Lemma run_ids_ok (cs : list call) : forall s : Subnet4.t,
  ids_ok s -> ids_ok (snd (run cs s)).
Proof.
  induction cs as [|c cs IH]; intros s Hs; [done|].
  rewrite run_cons. cbn [snd]. apply IH. clear IH.
  destruct c as [sn|i low high]; cbn [do_call].
  - cbn [Subnet4.add_config snd]. intros j c. cbn [Subnet4.cfgs].
    rewrite lookup_insert. case_decide; [|by apply Hs].
    by intros [= <-].
  - unfold Subnet4.add_pool_for_cfg.
    destruct (Subnet4.cfgs s !! i) as [c|] eqn:Hi; cbn [snd]; [|done].
    intros j c'. cbn [Subnet4.cfgs]. rewrite lookup_insert.
    case_decide; [|by apply Hs].
    intros [= <-]. cbn [Subnet4.id]. subst j. by apply Hs.
Qed.

Lemma array_ids_to_json `{Subnet4.Iteration} (s : Subnet4.t) :
  array_ids (Subnet4.to_json s) =
  map Subnet4.id (map snd (Subnet4.iterate (Subnet4.cfgs s))).
Proof.
  unfold Subnet4.to_json, array_ids.
  induction (map snd (Subnet4.iterate (Subnet4.cfgs s))) as [|c l IH]; [done|].
  cbn [map flat_map]. rewrite IH. reflexivity.
Qed.

(** X9: in every state a run of calls reaches from a fresh [Subnet4],
    each entry is stored under the identifier it carries; so the ["id"]
    members of the serialized array are the keys of the map, each once. *)
Theorem subnet4_ids_are_keys `{Subnet4.Iteration} (cs : list call) :
  let s := snd (run cs Subnet4.new) in
  ids_ok s /\
  array_ids (Subnet4.to_json s) ≡ₚ map fst (map_to_list (Subnet4.cfgs s)) /\
  NoDup (array_ids (Subnet4.to_json s)).
Proof.
  cbv zeta.
  assert (Hok : ids_ok (snd (run cs Subnet4.new))).
  { apply run_ids_ok. intros j c Hj. cbn in Hj. by rewrite lookup_empty in Hj. }
  set (s := snd (run cs Subnet4.new)) in *.
  pose proof (Subnet4.iterate_perm (Subnet4.cfgs s)) as Hp.
  assert (E : array_ids (Subnet4.to_json s) =
              map fst (Subnet4.iterate (Subnet4.cfgs s))).
  { rewrite array_ids_to_json, map_map. apply map_ext_in.
    intros [j c] Hin. cbn. apply Hok.
    apply elem_of_map_to_list. rewrite <- Hp. by apply list_elem_of_In. }
  split; [done|]. rewrite E. split.
  - by apply Permutation_map.
  - rewrite (Permutation_map fst Hp). apply NoDup_fst_map_to_list.
Qed.




Lemma sorted_map {A B : Type} (f : A -> B) (R : B -> B -> Prop) (l : list A) :
  StronglySorted (fun a b => R (f a) (f b)) l -> StronglySorted R (map f l).
Proof.
  induction 1 as [|x l Hl IH Hx]; cbn [map]; constructor; [done|].
  apply Forall_forall. intros y Hy.
  apply list_elem_of_In, in_map_iff in Hy as (z & <- & Hz).
  apply list_elem_of_In in Hz. by eapply Forall_forall in Hx.
Qed.

(** X11: in every state a run of calls reaches from a fresh [Subnet4],
    the pools of every entry are in strictly ascending byte-wise order of
    their range strings, so no range occurs twice; this is the order of
    the ["pools"] array. *)
Theorem pools_ascending (cs : list call) (j : Z) (c : Subnet4.Cfg) :
  Subnet4.cfgs (snd (run cs Subnet4.new)) !! j = Some c ->
  StronglySorted (fun a b => String.ltb a b = true)
    (map Subnet4.range (Subnet4.pools c)) /\
  NoDup (map Subnet4.range (Subnet4.pools c)).
Proof.
  intros Hj.
  assert (Hok : set_ok Subnet4.pool_less (Subnet4.pools c)).
  { eapply (run_pools_ok cs Subnet4.new); [|exact Hj].
    intros k e Hk. cbn in Hk. by rewrite lookup_empty in Hk. }
  assert (Hs : StronglySorted (fun a b => String.ltb a b = true)
                 (map Subnet4.range (Subnet4.pools c))).
  { by apply sorted_map. }
  split; [done|].
  apply (set_ok_NoDup String.ltb ltb_irrefl). exact Hs.
Qed.

Lemma pools_ascending_witness :
  Subnet4.cfgs (snd (run Scenarios.subnet4_calls Subnet4.new)) !! 1 =
    Some (Subnet4.mkCfg 1 "192.168.1.0/24"
            [Subnet4.mkPool "192.168.1.100 - 192.168.1.200";
             Subnet4.mkPool "192.168.1.50 - 192.168.1.60"]) /\
  StronglySorted (fun a b => String.ltb a b = true)
    ["192.168.1.100 - 192.168.1.200"; "192.168.1.50 - 192.168.1.60"].
Proof.
  assert (H : Subnet4.cfgs (snd (run Scenarios.subnet4_calls Subnet4.new)) !! 1 =
    Some (Subnet4.mkCfg 1 "192.168.1.0/24"
            [Subnet4.mkPool "192.168.1.100 - 192.168.1.200";
             Subnet4.mkPool "192.168.1.50 - 192.168.1.60"])) by (by vm_compute).
  split; [exact H|].
  exact (proj1 (pools_ascending Scenarios.subnet4_calls 1 _ H)).
Defined.

(** ** Insertion when equivalent elements are equal *)

Section StdSetTotal.
Context {A : Type} (less : A -> A -> bool).
Hypothesis less_irrefl : forall x, less x x = false.
Hypothesis less_trans :
  forall x y z, less x y = true -> less y z = true -> less x z = true.
Hypothesis less_total :
  forall x y, less x y = false -> less y x = false -> x = y.

Lemma set_insert_superset (x z : A) (s : list A) :
  z ∈ s -> z ∈ set_insert less x s.
Proof.
  induction s as [|y s IH]; simpl; [by intros ?%elem_of_nil|].
  intros Hz. destruct (less x y); [by right|destruct (less y x); [|done]].
  apply elem_of_cons in Hz as [->|Hz]; [left|right; auto].
Qed.

Lemma set_insert_elem (x z : A) (s : list A) :
  z ∈ set_insert less x s <-> z = x \/ z ∈ s.
Proof.
  split; [apply set_insert_subset|].
  intros [->|Hz]; [|by apply set_insert_superset].
  destruct (set_insert_equiv less less_irrefl x s) as (y & Hy & Hxy & Hyx).
  by rewrite <- (less_total x y Hxy Hyx) in Hy.
Qed.

Lemma set_insert_comm (x y : A) (s : list A) :
  set_ok less s ->
  set_insert less x (set_insert less y s) =
  set_insert less y (set_insert less x s).
Proof.
  intros Hs.
  assert (Hok : forall a b,
            set_ok less (set_insert less a (set_insert less b s))).
  { intros a b. by do 2 apply (set_insert_ok less less_trans). }
  apply (set_ok_unique less less_irrefl less_trans); [apply Hok..|].
  apply NoDup_Permutation.
  - apply (set_ok_NoDup less less_irrefl), Hok.
  - apply (set_ok_NoDup less less_irrefl), Hok.
  - intros z. rewrite !set_insert_elem. tauto.
Qed.

End StdSetTotal.

(** ** Runs that stay below [2^64] calls of [add_config] *)

Lemma add_config_count_cons (c : call) (cs : list call) :
  add_config_count (c :: cs) =
  ((if is_add_config c then 1 else 0) + add_config_count cs)%nat.
Proof. unfold add_config_count. cbn [List.filter]. by destruct (is_add_config c). Qed.

Lemma add_config_count_app (cs1 cs2 : list call) :
  add_config_count (cs1 ++ cs2) =
  (add_config_count cs1 + add_config_count cs2)%nat.
Proof. unfold add_config_count. by rewrite List.filter_app, length_app. Qed.

Lemma extends_refl (e : Subnet4.Cfg) : extends e e.
Proof. by repeat split. Qed.

Lemma extends_trans (e1 e2 e3 : Subnet4.Cfg) :
  extends e1 e2 -> extends e2 e3 -> extends e1 e3.
Proof.
  intros (Hi & Hs & Hp) (Hi' & Hs' & Hp'). repeat split; [congruence..|auto].
Qed.

Lemma do_call_counted (c : call) (s : Subnet4.t) (n : nat) :
  counted s n ->
  Z.of_nat (n + (if is_add_config c then 1 else 0)) < 2 ^ 64 ->
  counted (snd (do_call c s)) (n + (if is_add_config c then 1 else 0)) /\
  forall j e, Subnet4.cfgs s !! j = Some e ->
    exists e', Subnet4.cfgs (snd (do_call c s)) !! j = Some e' /\ extends e e'.
Proof.
  intros [Hm Hk] Hn. destruct c as [sn|i low high]; cbn [is_add_config do_call] in *.
  - cbn [Subnet4.add_config snd].
    assert (Em : Subnet4.max_id s = 1 + Z.of_nat n).
    { rewrite Hm. apply wrap64_small. lia. }
    split; [split|].
    + cbn [Subnet4.max_id]. rewrite Em. f_equal. lia.
    + intros j. cbn [Subnet4.cfgs]. rewrite lookup_insert, Em.
      case_decide as Hj.
      * split; [lia|by eexists].
      * rewrite Hk. lia.
    + intros j e Hj. exists e. split; [|apply extends_refl].
      cbn [Subnet4.cfgs]. rewrite lookup_insert_ne; [done|].
      assert (1 <= j <= Z.of_nat n) by (apply Hk; by rewrite Hj). lia.
  - rewrite Nat.add_0_r. unfold Subnet4.add_pool_for_cfg.
    destruct (Subnet4.cfgs s !! i) as [c|] eqn:Hi; cbn [snd].
    + split; [split|].
      * done.
      * intros j. cbn [Subnet4.cfgs]. rewrite lookup_insert, <- Hk.
        case_decide as Hj; [|done]. subst j. rewrite Hi. split; by eexists.
      * intros j e Hj. cbn [Subnet4.cfgs]. rewrite lookup_insert.
        case_decide as Hij; [|exists e; split; [done|apply extends_refl]].
        subst j. rewrite Hi in Hj. injection Hj as ->.
        eexists. split; [done|]. repeat split. cbn [Subnet4.pools].
        intros p. apply set_insert_superset.
    + split; [done|]. intros j e Hj. exists e. split; [done|apply extends_refl].
Qed.

Lemma run_counted (cs : list call) : forall (s : Subnet4.t) (n : nat),
  counted s n ->
  Z.of_nat (n + add_config_count cs) < 2 ^ 64 ->
  counted (snd (run cs s)) (n + add_config_count cs) /\
  forall j e, Subnet4.cfgs s !! j = Some e ->
    exists e', Subnet4.cfgs (snd (run cs s)) !! j = Some e' /\ extends e e'.
Proof.
  induction cs as [|c cs IH]; intros s n Hs Hn.
  - cbn [run snd]. unfold add_config_count. cbn. rewrite Nat.add_0_r.
    split; [done|]. intros j e Hj. exists e. split; [done|apply extends_refl].
  - rewrite add_config_count_cons, Nat.add_assoc in *.
    rewrite run_cons. cbn [snd].
    destruct (do_call_counted c s n Hs) as [Hs1 Hp1]; [lia|].
    destruct (IH _ _ Hs1 Hn) as [Hs2 Hp2].
    split; [done|]. intros j e Hj.
    destruct (Hp1 j e Hj) as (e1 & Hj1 & He1).
    destruct (Hp2 j e1 Hj1) as (e2 & Hj2 & He2).
    exists e2. split; [done|by eapply extends_trans].
Qed.

Lemma counted_new : counted Subnet4.new 0.
Proof.
  split; [done|]. intros j. cbn. rewrite lookup_empty. split; [by intros [? ?]|lia].
Qed.

(** X12: after a run of calls on a fresh [Subnet4] in which [add_config]
    occurs [n] times, [n] below [2^64], whatever the calls of
    [add_pool_for_cfg] between them: the counter is [n + 1] as a
    [uint64_t], the identifiers present are exactly 1 to [n], and
    [empty ()] holds exactly when [n] is 0. *)
Theorem run_counter_and_keys (cs : list call) :
  Z.of_nat (add_config_count cs) < 2 ^ 64 ->
  let s := snd (run cs Subnet4.new) in
  let n := Z.of_nat (add_config_count cs) in
  Subnet4.max_id s = wrap64 (1 + n) /\
  (forall j, is_Some (Subnet4.cfgs s !! j) <-> 1 <= j <= n) /\
  (Subnet4.empty s = true <-> n = 0).
Proof.
  intros Hn. cbv zeta.
  destruct (run_counted cs Subnet4.new 0 counted_new) as [[Hm Hk] _]; [done|].
  rewrite Nat.add_0_l in Hm, Hk.
  split; [done|]. split; [done|].
  unfold Subnet4.empty. rewrite bool_decide_eq_true. split.
  - intros E. destruct (decide (Z.of_nat (add_config_count cs) = 0)); [done|].
    assert (Hs : is_Some (Subnet4.cfgs (snd (run cs Subnet4.new)) !! 1))
      by (apply Hk; lia).
    rewrite E, lookup_empty in Hs. by destruct Hs.
  - intros E. apply map_empty. intros j.
    apply eq_None_not_Some. rewrite Hk. lia.
Qed.

Lemma run_counter_and_keys_witness :
  Z.of_nat (add_config_count Scenarios.subnet4_calls) < 2 ^ 64 /\
  Subnet4.max_id (snd (run Scenarios.subnet4_calls Subnet4.new)) = wrap64 (1 + 2).
Proof.
  split; [reflexivity|].
  exact (proj1 (run_counter_and_keys Scenarios.subnet4_calls eq_refl)).
Defined.

(** X13: nothing is removed or renamed. In a run on a fresh [Subnet4]
    with fewer than [2^64] calls of [add_config], an entry present at some
    point of the run is present under the same key at every later point,
    with the same identifier and subnet string and with every pool it
    had. *)
Theorem entries_persist (cs1 cs2 : list call) (j : Z) (e : Subnet4.Cfg) :
  Z.of_nat (add_config_count (cs1 ++ cs2)) < 2 ^ 64 ->
  Subnet4.cfgs (snd (run cs1 Subnet4.new)) !! j = Some e ->
  exists e', Subnet4.cfgs (snd (run (cs1 ++ cs2) Subnet4.new)) !! j = Some e' /\
    Subnet4.id e' = Subnet4.id e /\
    Subnet4.subnet e' = Subnet4.subnet e /\
    forall p, p ∈ Subnet4.pools e -> p ∈ Subnet4.pools e'.
Proof.
  rewrite add_config_count_app, run_app. intros Hn Hj.
  destruct (run_counted cs1 Subnet4.new 0 counted_new) as [H1 _];
    [rewrite Nat.add_0_l; lia|].
  rewrite Nat.add_0_l in H1.
  destruct (run_counted cs2 _ _ H1 Hn) as [_ Hp].
  exact (Hp j e Hj).
Qed.

Lemma entries_persist_witness :
  let cs1 := [AddConfig "192.168.1.0/24";
              AddPoolForCfg 1 "192.168.1.100" "192.168.1.200"] in
  let cs2 := [AddConfig "10.0.0.0/8";
              AddPoolForCfg 1 "192.168.1.50" "192.168.1.60"] in
  Z.of_nat (add_config_count (cs1 ++ cs2)) < 2 ^ 64 /\
  Subnet4.cfgs (snd (run cs1 Subnet4.new)) !! 1 =
    Some (Subnet4.mkCfg 1 "192.168.1.0/24"
            [Subnet4.mkPool "192.168.1.100 - 192.168.1.200"]) /\
  exists e', Subnet4.cfgs (snd (run (cs1 ++ cs2) Subnet4.new)) !! 1 = Some e' /\
    Subnet4.mkPool "192.168.1.100 - 192.168.1.200" ∈ Subnet4.pools e'.
Proof.
  cbv zeta.
  assert (Hn : Z.of_nat (add_config_count
            ([AddConfig "192.168.1.0/24";
              AddPoolForCfg 1 "192.168.1.100" "192.168.1.200"] ++
             [AddConfig "10.0.0.0/8";
              AddPoolForCfg 1 "192.168.1.50" "192.168.1.60"])) < 2 ^ 64)
    by reflexivity.
  assert (Hj : Subnet4.cfgs (snd (run
             [AddConfig "192.168.1.0/24";
              AddPoolForCfg 1 "192.168.1.100" "192.168.1.200"] Subnet4.new)) !! 1 =
    Some (Subnet4.mkCfg 1 "192.168.1.0/24"
            [Subnet4.mkPool "192.168.1.100 - 192.168.1.200"])) by (by vm_compute).
  split; [exact Hn|]. split; [exact Hj|].
  destruct (entries_persist _ _ 1 _ Hn Hj) as (e' & He' & _ & _ & Hp).
  exists e'. split; [exact He'|]. apply Hp. left.
Defined.

Lemma pool_less_total (p q : Subnet4.Pool) :
  Subnet4.pool_less p q = false -> Subnet4.pool_less q p = false -> p = q.
Proof. apply pool_equiv_eq. Qed.

(** X14: two calls of [add_pool_for_cfg] on identifiers that are present
    may be made in either order: the state after both is the same, be the
    identifiers and the ranges equal or not. *)
Theorem add_pool_for_cfg_commute (s : Subnet4.t) (i1 i2 : Z)
    (c1 c2 : Subnet4.Cfg) (low1 high1 low2 high2 : string) :
  Subnet4.cfgs s !! i1 = Some c1 ->
  Subnet4.cfgs s !! i2 = Some c2 ->
  set_ok Subnet4.pool_less (Subnet4.pools c1) ->
  snd (Subnet4.add_pool_for_cfg i2 low2 high2
         (snd (Subnet4.add_pool_for_cfg i1 low1 high1 s))) =
  snd (Subnet4.add_pool_for_cfg i1 low1 high1
         (snd (Subnet4.add_pool_for_cfg i2 low2 high2 s))).
Proof.
  intros H1 H2 Hok.
  rewrite (add_pool_for_cfg_present s i1 c1 low1 high1 H1).
  rewrite (add_pool_for_cfg_present s i2 c2 low2 high2 H2).
  cbn [snd].
  destruct (decide (i1 = i2)) as [->|Hne].
  - assert (c1 = c2) as <- by congruence.
    erewrite !add_pool_for_cfg_present
      by (cbn [Subnet4.cfgs]; apply lookup_insert_eq).
    cbn [snd Subnet4.max_id Subnet4.cfgs Subnet4.id Subnet4.subnet Subnet4.pools].
    rewrite !insert_insert_eq. do 3 f_equal.
    apply (set_insert_comm _ pool_less_irrefl pool_less_trans pool_less_total).
    exact Hok.
  - erewrite (add_pool_for_cfg_present _ i2 c2)
      by (cbn [Subnet4.cfgs]; by rewrite lookup_insert_ne).
    erewrite (add_pool_for_cfg_present _ i1 c1)
      by (cbn [Subnet4.cfgs]; by rewrite lookup_insert_ne).
    cbn [snd Subnet4.max_id Subnet4.cfgs]. f_equal.
    by apply insert_insert_ne.
Qed.

Lemma add_pool_for_cfg_commute_witness :
  let s := snd (run [AddConfig "192.168.1.0/24"; AddConfig "10.0.0.0/8"]
                  Subnet4.new) in
  Subnet4.cfgs s !! 1 = Some (Subnet4.mkCfg 1 "192.168.1.0/24" []) /\
  Subnet4.cfgs s !! 2 = Some (Subnet4.mkCfg 2 "10.0.0.0/8" []) /\
  set_ok Subnet4.pool_less [] /\
  snd (Subnet4.add_pool_for_cfg 2 "10.1.2.3" "10.1.2.3"
         (snd (Subnet4.add_pool_for_cfg 1 "192.168.1.50" "192.168.1.60" s))) =
  snd (Subnet4.add_pool_for_cfg 1 "192.168.1.50" "192.168.1.60"
         (snd (Subnet4.add_pool_for_cfg 2 "10.1.2.3" "10.1.2.3" s))).
Proof.
  cbv zeta.
  assert (H1 : Subnet4.cfgs (snd (run [AddConfig "192.168.1.0/24";
               AddConfig "10.0.0.0/8"] Subnet4.new)) !! 1 =
             Some (Subnet4.mkCfg 1 "192.168.1.0/24" [])) by reflexivity.
  assert (H2 : Subnet4.cfgs (snd (run [AddConfig "192.168.1.0/24";
               AddConfig "10.0.0.0/8"] Subnet4.new)) !! 2 =
             Some (Subnet4.mkCfg 2 "10.0.0.0/8" [])) by reflexivity.
  assert (Hok : set_ok Subnet4.pool_less []) by constructor.
  split; [exact H1|]. split; [exact H2|]. split; [exact Hok|].
  exact (add_pool_for_cfg_commute _ 1 2 _ _ "192.168.1.50" "192.168.1.60"
           "10.1.2.3" "10.1.2.3" H1 H2 Hok).
Defined.

(** ** OptionData: names met for the first time *)

(** X15: [add_option] with a name that no stored option has adds
    exactly that option: the options afterwards are the new one and the
    old ones, one more in number, still in ascending order of name, and
    [empty ()] no longer holds. *)
Theorem add_option_fresh (od : OptionData.t) (n d : string) (a : bool) :
  set_ok OptionData.option_less (OptionData.options od) ->
  (forall o, o ∈ OptionData.options od -> OptionData.name o <> n) ->
  OptionData.options (OptionData.add_option n d a od) ≡ₚ
    OptionData.mkOption n d a :: OptionData.options od /\
  length (OptionData.options (OptionData.add_option n d a od)) =
    S (length (OptionData.options od)) /\
  set_ok OptionData.option_less
    (OptionData.options (OptionData.add_option n d a od)) /\
  OptionData.empty (OptionData.add_option n d a od) = false.
Proof.
  intros Hok Hfresh. unfold OptionData.add_option. cbn [OptionData.options].
  assert (Hp : set_insert OptionData.option_less (OptionData.mkOption n d a)
                 (OptionData.options od)
               ≡ₚ OptionData.mkOption n d a :: OptionData.options od).
  { apply set_insert_perm. intros y Hy. apply option_less_other_name.
    cbn. intros E. by apply (Hfresh y Hy). }
  split; [done|]. split; [by rewrite Hp|].
  split; [by apply set_insert_ok; [apply option_less_trans|]|].
  unfold OptionData.empty. cbn [OptionData.options].
  destruct (set_insert _ _ _); [|done].
  by apply Permutation_nil_cons in Hp.
Qed.

Lemma add_option_fresh_witness :
  let od := OptionData.add_option "routers" "192.168.1.1" false OptionData.new in
  set_ok OptionData.option_less (OptionData.options od) /\
  length (OptionData.options
            (OptionData.add_option "domain-name-servers" "8.8.8.8" true od)) = 2%nat.
Proof.
  cbv zeta.
  assert (Hok : set_ok OptionData.option_less (OptionData.options
            (OptionData.add_option "routers" "192.168.1.1" false OptionData.new)))
    by (repeat constructor).
  split; [exact Hok|].
  refine (proj1 (proj2 (add_option_fresh _ "domain-name-servers" "8.8.8.8" true
                          Hok _))).
  intros o Ho. apply list_elem_of_singleton in Ho. subst o. discriminate.
Defined.

(** X16: first write wins over a whole sequence of [add_option] calls
    on an empty [OptionData]: the options stored are those of the calls
    whose name no earlier call had, and two sequences with the same first
    occurrences, up to order, serialize to the same array. *)
Theorem add_options_first_occurrences (l : list OptionData.Option) :
  OptionData.options (add_options l OptionData.new) ≡ₚ first_occurrences [] l /\
  forall l', first_occurrences [] l ≡ₚ first_occurrences [] l' ->
    OptionData.to_json (add_options l OptionData.new) =
    OptionData.to_json (add_options l' OptionData.new).
Proof.
  assert (H : forall k, OptionData.options (add_options k OptionData.new)
                        ≡ₚ first_occurrences [] k).
  { intros k. by rewrite add_options_first by constructor. }
  split; [apply H|].
  intros l' Hp. unfold OptionData.to_json. do 2 f_equal.
  apply (set_ok_unique _ option_less_irrefl option_less_trans).
  - apply add_options_ok. constructor.
  - apply add_options_ok. constructor.
  - by rewrite !H.
Qed.

Lemma add_options_first_occurrences_witness :
  let l := [OptionData.mkOption "routers" "192.168.1.1" false;
            OptionData.mkOption "domain-name-servers" "8.8.8.8, 1.1.1.1" true;
            OptionData.mkOption "routers" "192.168.2.1" true] in
  let l' := [OptionData.mkOption "domain-name-servers" "8.8.8.8, 1.1.1.1" true;
             OptionData.mkOption "routers" "192.168.1.1" false] in
  first_occurrences [] l ≡ₚ first_occurrences [] l' /\
  OptionData.to_json (add_options l OptionData.new) =
  OptionData.to_json (add_options l' OptionData.new).
Proof.
  cbv zeta.
  assert (Hp : first_occurrences []
            [OptionData.mkOption "routers" "192.168.1.1" false;
             OptionData.mkOption "domain-name-servers" "8.8.8.8, 1.1.1.1" true;
             OptionData.mkOption "routers" "192.168.2.1" true] ≡ₚ
          first_occurrences []
            [OptionData.mkOption "domain-name-servers" "8.8.8.8, 1.1.1.1" true;
             OptionData.mkOption "routers" "192.168.1.1" false])
    by (vm_compute; apply perm_swap).
  split; [exact Hp|].
  exact (proj2 (add_options_first_occurrences _) _ Hp).
Defined.

(** ** Diagnostics and truncated documents *)

(** X17: each serializer of [Dhcp4] writes at most one line to
    [std::cerr]. The library's writes none exactly when the document has
    ["subnet4"], that is when no gate stopped it; the standalone
    program's writes none exactly when the document has ["option-data"]. *)
Theorem dhcp4_diagnostics `{Subnet4.Iteration} (d : Dhcp4.t) :
  (length (snd (Dhcp4.to_json d)) <= 1)%nat /\
  (snd (Dhcp4.to_json d) = [] <->
   is_Some (Json.get "subnet4" (fst (Dhcp4.to_json d)))) /\
  (length (snd (Standalone.Dhcp4_to_json d)) <= 1)%nat /\
  (snd (Standalone.Dhcp4_to_json d) = [] <->
   is_Some (Json.get "option-data" (fst (Standalone.Dhcp4_to_json d)))).
Proof.
  unfold Dhcp4.to_json, Standalone.Dhcp4_to_json.
  rewrite standalone_LeaseDatabase_empty.
  case_gates d; cbn [negb fst snd length];
    (split; [lia|]); (split; [|split; [lia|]]);
    (split; [intros E; try discriminate E; by eexists
            |intros [x Hx]; try reflexivity; by vm_compute in Hx]).
Qed.

(** X18: a [Dhcp4] serialized as the constructor left it, before any
    subnet is added, is always cut short: the document has neither
    ["subnet4"] nor ["option-data"] and one diagnostic is written,
    whatever the arguments of the constructor. *)
Theorem fresh_dhcp4_truncated `{Subnet4.Iteration}
    (lifetime : Z) (ifs : list string) (ty : string) (p : bool) (nm : string) :
  let d := Dhcp4.make lifetime ifs ty p nm in
  Json.get "subnet4" (fst (Dhcp4.to_json d)) = None /\
  Json.get "option-data" (fst (Dhcp4.to_json d)) = None /\
  length (snd (Dhcp4.to_json d)) = 1%nat /\
  Json.get "valid-lifetime" (fst (Dhcp4.to_json d)) = Some (JUnsigned lifetime).
Proof.
  cbv zeta. unfold Dhcp4.make, Dhcp4.to_json.
  cbn [Dhcp4.interface_config Dhcp4.lease_database Dhcp4.subnet4
       Dhcp4.option_data Dhcp4.valid_lifetime].
  change (Subnet4.empty Subnet4.new) with true.
  destruct (InterfacesConfig.empty _); [by vm_compute|].
  destruct (LeaseDatabase.empty _); by vm_compute.
Qed.

(** X19: the document the standalone program's [main] prints, whatever
    the iteration order of the subnet map: the default root with the
    subnet 192.168.10.0/24, its pool stored under the identifier 1 that
    [max_id - 1] addresses, and the one option; no diagnostic is written. *)
Theorem standalone_main_document `{Subnet4.Iteration} :
  Standalone.KeaConfig_to_json Standalone.main_config =
  (JObject
     [("Dhcp4",
       JObject
         [("interfaces-config",
           JObject [("interfaces", JArray [JString "aaa"; JString "bbb"])]);
          ("lease-database",
           JObject [("name", JString "/var/lib/kea/dhcp4.leases");
                    ("persist", JBool true);
                    ("type", JString "memfile")]);
          ("option-data",
           JArray [JObject [("always-send", JBool true);
                            ("data", JString "192.0.2.1, 192.0.2.2");
                            ("name", JString "domain-name-servers")]]);
          ("subnet4",
           JArray
             [JObject
                [("id", JUnsigned 1);
                 ("pools",
                  JArray [JObject [("pool", JString "192.168.10.10 - 192.168.10.20")]]);
                 ("subnet", JString "192.168.10.0/24")]]);
          ("valid-lifetime", JUnsigned 4000)])],
   []).
Proof.
  pose proof (Subnet4.iterate_perm
                (Subnet4.cfgs (Dhcp4.subnet4 (KeaConfig.dhcp4 Standalone.main_config))))
    as Hp.
  vm_compute in Hp. apply Permutation_singleton_r in Hp.
  vm_compute. rewrite Hp. reflexivity.
Qed.

(** X20: the header's constructor builds the same [Dhcp4] with or
    without the warning, and it warns exactly in the case in which the
    serializer will stop at its first gate: when no interface was given,
    which is when the serialized document has ["valid-lifetime"] alone. *)
Theorem constructor_warning `{Subnet4.Iteration}
    (lifetime : Z) (ifs : list string) (ty : string) (p : bool) (nm : string) :
  let d := fst (construct_Dhcp4 lifetime ifs ty p nm) in
  let log := snd (construct_Dhcp4 lifetime ifs ty p nm) in
  d = Dhcp4.make lifetime ifs ty p nm /\
  (log = ["[Warning] Dhcp4 created with empty interfaces-config."] <-> ifs = []) /\
  (log = [] <-> ifs <> []) /\
  (log <> [] <-> Json.keys (fst (Dhcp4.to_json d)) = ["valid-lifetime"]).
Proof.
  cbv zeta. unfold construct_Dhcp4, Dhcp4.make, Dhcp4.to_json.
  cbn [Dhcp4.interface_config Dhcp4.lease_database Dhcp4.subnet4
       Dhcp4.option_data Dhcp4.valid_lifetime InterfacesConfig.empty
       InterfacesConfig.interfaces].
  destruct ifs as [|x ifs]; cbn [fst snd].
  - repeat split; try done; by intros _ [=].
  - split; [done|]. split; [split; intros [=]|]. split; [done|].
    split; [done|]. intros E. exfalso. revert E.
    destruct (LeaseDatabase.empty _); [by vm_compute|].
    change (Subnet4.empty Subnet4.new) with true. by vm_compute.
Qed.
